(** * The web3 connection manager ([src/manager.ts]), embedded in Rocq.

    The manager is a React hook: every render closes over one snapshot
    [web3State] of the reducer's store, and its operations ([setConnector],
    [activateAccount], the listener handlers) read that snapshot and
    [dispatch] actions to the store.  The embedding keeps the two apart:
    the snapshot is a parameter of the operations, the store is threaded
    through a small state-and-exception monad together with the trace of
    everything the manager did to the outside world (connector calls,
    dispatched actions, console messages).

    An [async] function is sequentialised: completing normally is the
    returned promise resolving, completing abruptly is it rejecting.  Other
    tasks interleaving at an [await] are outside this model. *)

From Stdlib Require Import ZArith String List Bool Arith Lia.
Import ListNotations.
Local Open Scope string_scope.

(** ** Values *)

(** What [error.code] can hold; [===] on these is structural equality. *)
Inductive ErrorCode : Type :=
| CodeUndefined
| CodeNumber (n : Z)
| CodeString (s : string).

Definition ErrorCode_eqb (a b : ErrorCode) : bool :=
  match a, b with
  | CodeUndefined, CodeUndefined => true
  | CodeNumber n, CodeNumber m => Z.eqb n m
  | CodeString s, CodeString t => String.eqb s t
  | _, _ => false
  end.

Record Error : Type := mkError { message : string; code : ErrorCode }.

(** [account ?: string | null]: absent, [null], or an address. *)
Inductive Account : Type :=
| AccountUndefined
| AccountNull
| AccountAddress (a : string).

Definition Account_is_undefined (a : Account) : bool :=
  match a with AccountUndefined => true | _ => false end.

Definition Account_is_null (a : Account) : bool :=
  match a with AccountNull => true | _ => false end.

(** [accounts[0]] on a JS array: [undefined] past the end. *)
Definition first_account (accounts : list string) : Account :=
  match accounts with
  | [] => AccountUndefined
  | a :: _ => AccountAddress a
  end.

(** JS truthiness of an optional string and of an optional (integer) number. *)
Definition truthy_string (s : option string) : bool :=
  match s with
  | Some t => negb (String.eqb t "")
  | None => false
  end.

Definition truthy_number (n : option Z) : bool :=
  match n with
  | Some k => negb (Z.eqb k 0)
  | None => false
  end.

Definition is_some {A : Type} (o : option A) : bool :=
  match o with Some _ => true | None => false end.

(** ** Promises, as far as the manager observes them *)

Inductive Settled (A : Type) : Type :=
| Fulfilled (v : A)
| RejectedWith (e : Error).
Arguments Fulfilled {A} v.
Arguments RejectedWith {A} e.

(** [settledAt] is the logical time at which the promise settles; only
    [Promise.all] looks at it, to pick the rejection that comes first. *)
Record Promise (A : Type) : Type := mkPromise
  { settledAt : nat; settlement : Settled A }.
Arguments mkPromise {A} settledAt settlement.
Arguments settledAt {A} p.
Arguments settlement {A} p.

(** A call of a connector method either throws synchronously or hands back
    a promise. *)
Inductive Invocation (A : Type) : Type :=
| Threw (e : Error)
| Returned (p : Promise A).
Arguments Threw {A} e.
Arguments Returned {A} p.

(** A plain value passed to [Promise.all] counts as already fulfilled. *)
Definition Promise_resolve {A : Type} (v : A) : Promise A :=
  mkPromise 0 (Fulfilled v).

(** [Promise.all([p, q])]: fulfilled with both values, or rejected with the
    reason of whichever input rejects first (the first listed on a tie). *)
Definition Promise_all {A B : Type} (p : Promise A) (q : Promise B)
  : Promise (A * B) :=
  match settlement p, settlement q with
  | Fulfilled a, Fulfilled b =>
      mkPromise (Nat.max (settledAt p) (settledAt q)) (Fulfilled (a, b))
  | RejectedWith e, Fulfilled _ => mkPromise (settledAt p) (RejectedWith e)
  | Fulfilled _, RejectedWith e => mkPromise (settledAt q) (RejectedWith e)
  | RejectedWith e1, RejectedWith e2 =>
      if Nat.leb (settledAt p) (settledAt q)
      then mkPromise (settledAt p) (RejectedWith e1)
      else mkPromise (settledAt q) (RejectedWith e2)
  end.

Inductive Method : Type :=
| OnActivation | GetLibrary | GetNetworkId | GetAccount | OnDeactivation.

(** What [await] makes of a method call: a synchronous throw inside the
    awaited expression and a rejected promise look the same. *)
Definition outcome {A : Type} (r : Invocation A) : Settled A :=
  match r with
  | Threw e => RejectedWith e
  | Returned p => settlement p
  end.

(** The two events the manager subscribes to on [window.ethereum]. *)
Inductive ListenerKind : Type := NetworkChanged | AccountsChanged.

(** How a statement, or an [async] call, ends: normally with a value, or by
    an exception (a rejection). *)
Inductive Completion (A : Type) : Type :=
| Normal (a : A)
| Abrupt (e : Error).
Arguments Normal {A} a.
Arguments Abrupt {A} e.

Section Web3.

(** [Library] and [LibraryName] come from [./types] and the timeout code
    from [./connectors]; neither file is part of the sources at hand, so
    they are parameters.  A [Library] is an object handle, hence truthy. *)
Context {Library LibraryName : Type}.
Variable WALLETCONNECT_TIMEOUT : ErrorCode.

(** The connector interface the manager consumes.  [ref] stands for the
    identity of the JS object, which is what an effect's dependency list
    compares. *)
Record Connector : Type := mkConnector
  { ref : nat;
    onActivation : Invocation unit;
    getLibrary : LibraryName -> Invocation Library;
    getNetworkId : Library -> Invocation Z;
    getAccount : Library -> Invocation Account;
    activateAccountImmediately : bool;
    listenForNetworkChanges : bool;
    listenForAccountChanges : bool }.

(** The registry object; [Object.keys] lists the names in insertion order
    (JS moves integer-like keys to the front; the order only shows in the
    text of a console message). *)
Definition Connectors : Type := list (string * Connector).

Definition Object_keys (connectors : Connectors) : list string :=
  map fst connectors.

Fixpoint lookup (connectors : Connectors) (key : string) : option Connector :=
  match connectors with
  | [] => None
  | (k, c) :: rest => if String.eqb k key then Some c else lookup rest key
  end.

Definition includes (l : list string) (x : string) : bool :=
  existsb (String.eqb x) l.

(** ** The state store *)

Record Web3State : Type := mkWeb3State
  { connectorName : option string;
    library : option Library;
    networkId : option Z;
    account : Account;
    error : option Error }.

Definition initialWeb3State : Web3State :=
  {| connectorName := None;
     library := None;
     networkId := None;
     account := AccountUndefined;
     error := None |}.

(** The actions the manager dispatches.  The reducer's [default] case
    (throwing on an unknown tag) has no counterpart: every tag below is
    handled. *)
Inductive Action : Type :=
| UPDATE_CONNECTOR_VALUES
    (name : string) (lib : Library) (net : Z) (acc : Account)
| UPDATE_NETWORK_ID (net : Z)
| UPDATE_ACCOUNT (acc : Account)
| UPDATE_ERROR (err : Error)
| UPDATE_ERROR_WITH_NAME (err : Error) (name : string)
| RESET.

Definition web3StateReducer (state : Web3State) (action : Action) : Web3State :=
  match action with
  | UPDATE_CONNECTOR_VALUES name lib net acc =>
      {| connectorName := Some name;
         library := Some lib;
         networkId := Some net;
         account := acc;
         error := None |}
  | UPDATE_NETWORK_ID net =>
      {| connectorName := connectorName state;
         library := library state;
         networkId := Some net;
         account := account state;
         error := error state |}
  | UPDATE_ACCOUNT acc =>
      {| connectorName := connectorName state;
         library := library state;
         networkId := networkId state;
         account := acc;
         error := error state |}
  | UPDATE_ERROR err =>
      {| connectorName := connectorName state;
         library := library state;
         networkId := networkId state;
         account := account state;
         error := Some err |}
  | UPDATE_ERROR_WITH_NAME err name =>
      {| connectorName := Some name;
         library := library state;
         networkId := networkId state;
         account := account state;
         error := Some err |}
  | RESET => initialWeb3State
  end.

(** ** The effect monad *)

Inductive Event : Type :=
| Called (connector : nat) (method : Method)
| Dispatched (action : Action)
| ConsoleError (msg : string)
| EthereumOn (kind : ListenerKind)
| EthereumRemoveListener (kind : ListenerKind).

Record World : Type := mkWorld { store : Web3State; trace : list Event }.

Definition M (A : Type) : Type := World -> Completion A * World.

Definition ret {A : Type} (a : A) : M A := fun w => (Normal a, w).

Definition throw {A : Type} (e : Error) : M A := fun w => (Abrupt e, w).

Definition bind {A B : Type} (m : M A) (k : A -> M B) : M B :=
  fun w =>
    match m w with
    | (Normal a, w') => k a w'
    | (Abrupt e, w') => (Abrupt e, w')
    end.

Definition try_catch {A : Type} (body : M A) (handler : Error -> M A) : M A :=
  fun w =>
    match body w with
    | (Normal a, w') => (Normal a, w')
    | (Abrupt e, w') => handler e w'
    end.

Definition emit (ev : Event) : M unit :=
  fun w => (Normal tt, {| store := store w; trace := trace w ++ [ev] |}).

Definition console_error (msg : string) : M unit := emit (ConsoleError msg).

Definition dispatchWeb3State (action : Action) : M unit :=
  fun w =>
    (Normal tt,
     {| store := web3StateReducer (store w) action;
        trace := trace w ++ [Dispatched action] |}).

(** Calling method [m] of [connector]: the call is recorded, then it either
    throws or yields its promise. *)
Definition invoke {A : Type} (connector : Connector) (m : Method)
    (r : Invocation A) : M (Promise A) :=
  bind (emit (Called (ref connector) m))
       (fun _ => match r with
                 | Threw e => throw e
                 | Returned p => ret p
                 end).

Definition await {A : Type} (p : Promise A) : M A :=
  match settlement p with
  | Fulfilled v => ret v
  | RejectedWith e => throw e
  end.

Notation "x <- m ;; k" := (bind m (fun x => k))
  (at level 61, m at next level, right associativity).

(** ** The manager, inside one render *)

Section Manager.

(** [useWeb3Manager (connectors, libraryName)], and the snapshot
    [useReducer] handed to the render whose closures are running. *)
Variable connectors : Connectors.
Variable libraryName : LibraryName.
Variable web3State : Web3State.

Definition web3Initialized : bool :=
  truthy_string (connectorName web3State)
  && is_some (library web3State)
  && truthy_number (networkId web3State)
  && negb (Account_is_undefined (account web3State))
  && negb (is_some (error web3State)).

Definition activeConnector : option Connector :=
  match connectorName web3State with
  | Some name => if String.eqb name "" then None else lookup connectors name
  | None => None
  end.

(** [name === web3State.connectorName] *)
Definition is_current (name : string) : bool :=
  match connectorName web3State with
  | Some current => String.eqb name current
  | None => false
  end.

(** Reading a property of [undefined] throws a [TypeError]; it carries no
    [code]. *)
Definition TypeError (msg : string) : Error :=
  {| message := msg; code := CodeUndefined |}.

(** [processError]: returning [None] is the source's [undefined]. *)
Definition processError (error : Error) (connectorName : option string)
  : M (option Error) :=
  if ErrorCode_eqb (code error) WALLETCONNECT_TIMEOUT then ret None
  else
    _ <- match connectorName with
         | Some name =>
             if String.eqb name "" then dispatchWeb3State (UPDATE_ERROR error)
             else dispatchWeb3State (UPDATE_ERROR_WITH_NAME error name)
         | None => dispatchWeb3State (UPDATE_ERROR error)
         end ;;
    throw error.

(** The statement [if (processedError) throw processedError]; an [Error]
    object is truthy. *)
Definition throw_if_defined (processedError : option Error) : M unit :=
  match processedError with
  | Some e => throw e
  | None => ret tt
  end.

(** The body of the [try] block of [initializeConnectorValues]. *)
Definition activation (connector : Connector) (connectorName : string)
  : M unit :=
  p <- invoke connector OnActivation (onActivation connector) ;;
  _ <- await p ;;
  pl <- invoke connector GetLibrary (getLibrary connector libraryName) ;;
  library <- await pl ;;
  pn <- invoke connector GetNetworkId (getNetworkId connector library) ;;
  pa <- (if activateAccountImmediately connector
         then invoke connector GetAccount (getAccount connector library)
         else ret (Promise_resolve AccountNull)) ;;
  r <- await (Promise_all pn pa) ;;
  dispatchWeb3State
    (UPDATE_CONNECTOR_VALUES connectorName library (fst r) (snd r)).

Definition initializeConnectorValues (connectorName : string)
    (suppressGlobalError : bool) : M unit :=
  try_catch
    (match lookup connectors connectorName with
     | Some connector => activation connector connectorName
     | None => throw (TypeError "Cannot read property 'onActivation' of undefined")
     end)
    (fun error =>
       if suppressGlobalError then throw error
       else
         processedError <- processError error (Some connectorName) ;;
         throw_if_defined processedError).

Definition setConnector (connectorName : string) (suppressGlobalError : bool)
  : M unit :=
  let validConnectorNames := Object_keys connectors in
  if negb (includes validConnectorNames connectorName)
  then console_error
         ("The passed 'connectorName' parameter " ++ connectorName
          ++ " is not recognized."
          ++ "Valid values are: " ++ String.concat ", " validConnectorNames)
  else
    if is_current connectorName
    then console_error ("The " ++ connectorName ++ " connector is already set.")
    else initializeConnectorValues connectorName suppressGlobalError.

Definition unsetConnector : M unit := dispatchWeb3State RESET.

Definition networkChangedListenerHandler (networkId : Z) : M unit :=
  dispatchWeb3State (UPDATE_NETWORK_ID networkId).

Definition accountsChangedListenerHandler (accounts : list string) : M unit :=
  dispatchWeb3State (UPDATE_ACCOUNT (first_account accounts)).

(** [activateAccount]: a synchronous throw of [getAccount] happens outside
    the promise chain, so it skips [.catch] and rejects the returned
    promise directly. *)
Definition activateAccount (suppressGlobalError : bool) : M unit :=
  if negb web3Initialized
  then console_error "Calling this function in an uninitialized state is a no-op."
  else if negb (Account_is_null (account web3State))
  then console_error "Calling this function while an account is active is a no-op."
  else
    match activeConnector, library web3State with
    | Some connector, Some lib =>
        p <- invoke connector GetAccount (getAccount connector lib) ;;
        try_catch
          (acc <- await p ;; dispatchWeb3State (UPDATE_ACCOUNT acc))
          (fun error =>
             if suppressGlobalError then throw error
             else
               processedError <- processError error None ;;
               throw_if_defined processedError)
    | _, _ => console_error "Unexpected Error."
    end.

End Manager.

(** ** The hook across renders

    [setConnector] and the other operations run inside one render; the two
    kinds of [useEffect] in the hook act between renders.  React's contract
    for [useEffect (effect, deps)] is: after a render is committed, every
    effect one of whose dependencies changed (compared by identity) first
    has the cleanup it returned last time run, then runs again and may
    return a new cleanup; when the component unmounts all pending cleanups
    run.  Cleanups of a commit run before its effects, each in the order the
    hooks are written. *)

Section Lifecycle.

Variable connectors : Connectors.
Variable libraryName : LibraryName.

(** What React holds for the mounted hook: the state of the last committed
    render (from which that render's dependency lists derive) and the
    pending cleanups: the connector the first effect will deactivate, and
    whether each listener effect has a [removeListener] pending. *)
Record Hook : Type := mkHook
  { rendered : Web3State;
    deactivates : option Connector;
    networkListener : bool;
    accountListener : bool }.

Definition same_connector (a b : option Connector) : bool :=
  match a, b with
  | Some x, Some y => Nat.eqb (ref x) (ref y)
  | None, None => true
  | _, _ => false
  end.

Definition same_name (a b : option string) : bool :=
  match a, b with
  | Some x, Some y => String.eqb x y
  | None, None => true
  | _, _ => false
  end.

(** Dependencies [activeConnector] of the clean-up effect. *)
Definition activeConnector_changed (h : Hook) (s : Web3State) : bool :=
  negb (same_connector (activeConnector connectors (rendered h))
                       (activeConnector connectors s)).

(** Dependencies [web3Initialized, activeConnector, web3State.connectorName]
    of the two listener effects. *)
Definition listener_deps_changed (h : Hook) (s : Web3State) : bool :=
  negb (Bool.eqb (web3Initialized (rendered h)) (web3Initialized s)
        && same_connector (activeConnector connectors (rendered h))
                          (activeConnector connectors s)
        && same_name (connectorName (rendered h)) (connectorName s)).

Definition listens (kind : ListenerKind) (c : Connector) : bool :=
  match kind with
  | NetworkChanged => listenForNetworkChanges c
  | AccountsChanged => listenForAccountChanges c
  end.

(** The guard [web3Initialized && activeConnector && activeConnector.listenFor...]. *)
Definition wants (kind : ListenerKind) (s : Web3State) : bool :=
  web3Initialized s
  && match activeConnector connectors s with
     | Some c => listens kind c
     | None => false
     end.

Definition when (b : bool) (m : M unit) : M unit :=
  if b then m else ret tt.

(** The cleanup [() => activeConnector.onDeactivation()]. *)
Definition cleanup_connector (h : Hook) : M unit :=
  match deactivates h with
  | Some c => emit (Called (ref c) OnDeactivation)
  | None => ret tt
  end.

(** The cleanup [() => ethereum.removeListener (kind, handler)]. *)
Definition cleanup_listener (kind : ListenerKind) (pending : bool) : M unit :=
  when pending (emit (EthereumRemoveListener kind)).

(** A listener effect; [ethereum] tells whether [window.ethereum] is there
    with [on] and [removeListener].  It answers whether it returned a
    cleanup. *)
Definition listen (ethereum : bool) (kind : ListenerKind) (s : Web3State)
  : M bool :=
  if wants kind s && ethereum
  then _ <- emit (EthereumOn kind) ;; ret true
  else ret false.

(** Committing the render of the store's current state. *)
Definition render (ethereum : bool) (h : Hook) : M Hook :=
  fun w =>
    let s := store w in
    let c1 := activeConnector_changed h s in
    let c2 := listener_deps_changed h s in
    (_ <- when c1 (cleanup_connector h) ;;
     _ <- when c2 (cleanup_listener NetworkChanged (networkListener h)) ;;
     _ <- when c2 (cleanup_listener AccountsChanged (accountListener h)) ;;
     n <- (if c2 then listen ethereum NetworkChanged s
           else ret (networkListener h)) ;;
     a <- (if c2 then listen ethereum AccountsChanged s
           else ret (accountListener h)) ;;
     ret {| rendered := s;
            deactivates := if c1 then activeConnector connectors s
                           else deactivates h;
            networkListener := n;
            accountListener := a |}) w.


(** The first render: the initial state has no active connector and is not
    initialized, so no effect leaves a cleanup. *)
Definition mount : Hook :=
  {| rendered := initialWeb3State;
     deactivates := None;
     networkListener := false;
     accountListener := false |}.

Definition mounted : Hook * World :=
  (mount, {| store := initialWeb3State; trace := [] |}).

(** What can happen to a mounted hook. *)
Inductive Operation : Type :=
| SetConnector (name : string) (suppressGlobalError : bool)
| UnsetConnector
| ActivateAccount (suppressGlobalError : bool)
| NetworkChangedEvent (networkId : Z)
| AccountsChangedEvent (accounts : list string).

Inductive Step : Type :=
| Perform (op : Operation)
| Render (ethereum : bool).

(** An operation runs in the closures of the last committed render. *)
Definition perform (op : Operation) (h : Hook) : M unit :=
  match op with
  | SetConnector name suppress =>
      setConnector connectors libraryName (rendered h) name suppress
  | UnsetConnector => unsetConnector
  | ActivateAccount suppress =>
      activateAccount connectors (rendered h) suppress
  | NetworkChangedEvent networkId => networkChangedListenerHandler networkId
  | AccountsChangedEvent accounts => accountsChangedListenerHandler accounts
  end.

Definition step (hw : Hook * World) (st : Step) : Hook * World :=
  match st with
  | Perform op => (fst hw, snd (perform op (fst hw) (snd hw)))
  | Render ethereum =>
      match render ethereum (fst hw) (snd hw) with
      | (Normal h', w') => (h', w')
      | (Abrupt _, w') => (fst hw, w')
      end
  end.

Definition run (steps : list Step) : Hook * World :=
  fold_left step steps mounted.

(** Reading a trace: calls of [onDeactivation] on the connector [r]. *)
Definition is_deactivation (r : nat) (ev : Event) : bool :=
  match ev with
  | Called r' OnDeactivation => Nat.eqb r' r
  | _ => false
  end.

Definition deactivations (r : nat) (evs : list Event) : nat :=
  length (filter (is_deactivation r) evs).

Definition ListenerKind_eqb (a b : ListenerKind) : bool :=
  match a, b with
  | NetworkChanged, NetworkChanged => true
  | AccountsChanged, AccountsChanged => true
  | _, _ => false
  end.

(** Replaying the subscriptions of [kind] along a trace, from [n] installed
    listeners: [Some m] when the trace never installs a second listener
    while one is installed and never removes one that is not there, ending
    with [m] installed; [None] otherwise. *)
Fixpoint subscribed (kind : ListenerKind) (n : nat) (evs : list Event)
  : option nat :=
  match evs with
  | [] => Some n
  | EthereumOn k :: rest =>
      if ListenerKind_eqb k kind
      then match n with
           | O => subscribed kind 1 rest
           | S _ => None
           end
      else subscribed kind n rest
  | EthereumRemoveListener k :: rest =>
      if ListenerKind_eqb k kind
      then match n with
           | S O => subscribed kind 0 rest
           | _ => None
           end
      else subscribed kind n rest
  | _ :: rest => subscribed kind n rest
  end.

End Lifecycle.

(** ** Reading runs

    Predicates and functions used to state what a run of the manager did;
    none of them is part of the hook. *)

Section Observations.

Variable connectors : Connectors.
Variable libraryName : LibraryName.

(** The action [processError] commits for an error it does not swallow. *)
Definition error_action (e : Error) (name : option string) : Action :=
  match name with
  | Some n => if String.eqb n "" then UPDATE_ERROR e else UPDATE_ERROR_WITH_NAME e n
  | None => UPDATE_ERROR e
  end.

(** The catch handlers of [initializeConnectorValues] and [activateAccount]. *)
Definition unsuppressed (e : Error) (name : option string) : M unit :=
  processedError <- processError e name ;;
  throw_if_defined processedError.

(** The error came out of one of the connector's own methods. *)
Definition raised_by (c : Connector) (e : Error) : Prop :=
  outcome (onActivation c) = RejectedWith e
  \/ outcome (getLibrary c libraryName) = RejectedWith e
  \/ (exists lib, outcome (getNetworkId c lib) = RejectedWith e)
  \/ (exists lib, outcome (getAccount c lib) = RejectedWith e).

(** Events that are connector calls only. *)
Definition only_calls (evs : list Event) : Prop :=
  forall ev, In ev evs -> exists r m, ev = Called r m.

(** Events among which no action was dispatched. *)
Definition no_dispatch (evs : list Event) : Prop :=
  forall a, ~ In (Dispatched a) evs.

(** Events among which the account accessor was not called. *)
Definition no_account_fetch (evs : list Event) : Prop :=
  forall r, ~ In (Called r GetAccount) evs.

(** Events an operation (as opposed to an effect) produces: console
    messages, dispatches, and calls of the four activation methods. *)
Definition from_operation (ev : Event) : bool :=
  match ev with
  | Called _ OnDeactivation => false
  | Called _ _ => true
  | Dispatched _ => true
  | ConsoleError _ => true
  | EthereumOn _ => false
  | EthereumRemoveListener _ => false
  end.

(** [m] only appends events satisfying [P] to the trace. *)
Definition emits {A : Type} (P : Event -> Prop) (m : M A) : Prop :=
  forall w : World,
    exists evs, trace (snd (m w)) = (trace w ++ evs)%list /\ Forall P evs.

(** [m] always appends [ev] first. *)
Definition starts {A : Type} (ev : Event) (m : M A) : Prop :=
  forall w : World,
    exists rest, trace (snd (m w)) = (trace w ++ ev :: rest)%list.

(** The cleanup of the first effect, when its dependency changed. *)
Definition connector_events (h : Hook) (s : Web3State) : list Event :=
  if activeConnector_changed connectors h s
  then match deactivates h with
       | Some c => [Called (ref c) OnDeactivation]
       | None => []
       end
  else [].

(** The cleanups of the two listener effects, then the effects. *)
Definition listener_events (ethereum : bool) (h : Hook) (s : Web3State)
  : list Event :=
  ((if listener_deps_changed connectors h s && networkListener h
    then [EthereumRemoveListener NetworkChanged] else [])
   ++ (if listener_deps_changed connectors h s && accountListener h
       then [EthereumRemoveListener AccountsChanged] else [])
   ++ (if listener_deps_changed connectors h s
          && (wants connectors NetworkChanged s && ethereum)
       then [EthereumOn NetworkChanged] else [])
   ++ (if listener_deps_changed connectors h s
          && (wants connectors AccountsChanged s && ethereum)
       then [EthereumOn AccountsChanged] else []))%list.

Definition render_events (ethereum : bool) (h : Hook) (s : Web3State)
  : list Event :=
  (connector_events h s ++ listener_events ethereum h s)%list.

Definition render_hook (ethereum : bool) (h : Hook) (s : Web3State) : Hook :=
  {| rendered := s;
     deactivates := if activeConnector_changed connectors h s
                    then activeConnector connectors s
                    else deactivates h;
     networkListener :=
       if listener_deps_changed connectors h s
       then wants connectors NetworkChanged s && ethereum
       else networkListener h;
     accountListener :=
       if listener_deps_changed connectors h s
       then wants connectors AccountsChanged s && ethereum
       else accountListener h |}.

Definition installed (b : bool) : nat := if b then 1 else 0.

(** The pending cleanup is the rendered active connector's, and the trace
    has subscribed each kind of listener at most once at a time, a listener
    being installed exactly when its cleanup is pending. *)
Definition consistent (hw : Hook * World) : Prop :=
  same_connector (activeConnector connectors (rendered (fst hw)))
                 (deactivates (fst hw)) = true
  /\ subscribed NetworkChanged 0 (trace (snd hw))
     = Some (installed (networkListener (fst hw)))
  /\ subscribed AccountsChanged 0 (trace (snd hw))
     = Some (installed (accountListener (fst hw))).

(** An error [e] raised at a step of the activation sequence, told from the
    connector alone: by the activation hook; by the library fetch after the
    hook succeeded; or, after both, by the network-id fetch or the account
    fetch.  The two fetches are joined: a throw of [getNetworkId] comes
    before [getAccount] is called, a throw of [getAccount] after
    [getNetworkId] returned its promise, and of two rejected promises the
    one that settles first (the network id's on a tie) gives the error. *)
Inductive raises (c : Connector) (e : Error) : Prop :=
| raises_hook :
    outcome (onActivation c) = RejectedWith e -> raises c e
| raises_library (u : unit) :
    outcome (onActivation c) = Fulfilled u ->
    outcome (getLibrary c libraryName) = RejectedWith e -> raises c e
| raises_network_throw (u : unit) (lib : Library) :
    outcome (onActivation c) = Fulfilled u ->
    outcome (getLibrary c libraryName) = Fulfilled lib ->
    getNetworkId c lib = Threw e -> raises c e
| raises_network_alone (u : unit) (lib : Library) (pn : Promise Z) :
    outcome (onActivation c) = Fulfilled u ->
    outcome (getLibrary c libraryName) = Fulfilled lib ->
    getNetworkId c lib = Returned pn ->
    activateAccountImmediately c = false ->
    settlement pn = RejectedWith e -> raises c e
| raises_network_only (u : unit) (lib : Library) (pn : Promise Z)
    (pa : Promise Account) (a : Account) :
    outcome (onActivation c) = Fulfilled u ->
    outcome (getLibrary c libraryName) = Fulfilled lib ->
    getNetworkId c lib = Returned pn ->
    activateAccountImmediately c = true ->
    getAccount c lib = Returned pa ->
    settlement pn = RejectedWith e ->
    settlement pa = Fulfilled a -> raises c e
| raises_network_first (u : unit) (lib : Library) (pn : Promise Z)
    (pa : Promise Account) (e' : Error) :
    outcome (onActivation c) = Fulfilled u ->
    outcome (getLibrary c libraryName) = Fulfilled lib ->
    getNetworkId c lib = Returned pn ->
    activateAccountImmediately c = true ->
    getAccount c lib = Returned pa ->
    settlement pn = RejectedWith e ->
    settlement pa = RejectedWith e' ->
    settledAt pn <= settledAt pa -> raises c e
| raises_account_throw (u : unit) (lib : Library) (pn : Promise Z) :
    outcome (onActivation c) = Fulfilled u ->
    outcome (getLibrary c libraryName) = Fulfilled lib ->
    getNetworkId c lib = Returned pn ->
    activateAccountImmediately c = true ->
    getAccount c lib = Threw e -> raises c e
| raises_account_only (u : unit) (lib : Library) (pn : Promise Z)
    (pa : Promise Account) (n : Z) :
    outcome (onActivation c) = Fulfilled u ->
    outcome (getLibrary c libraryName) = Fulfilled lib ->
    getNetworkId c lib = Returned pn ->
    activateAccountImmediately c = true ->
    getAccount c lib = Returned pa ->
    settlement pn = Fulfilled n ->
    settlement pa = RejectedWith e -> raises c e
| raises_account_first (u : unit) (lib : Library) (pn : Promise Z)
    (pa : Promise Account) (e' : Error) :
    outcome (onActivation c) = Fulfilled u ->
    outcome (getLibrary c libraryName) = Fulfilled lib ->
    getNetworkId c lib = Returned pn ->
    activateAccountImmediately c = true ->
    getAccount c lib = Returned pa ->
    settlement pn = RejectedWith e' ->
    settlement pa = RejectedWith e ->
    settledAt pa < settledAt pn -> raises c e.

End Observations.

End Web3.

Notation "x <- m ;; k" := (bind m (fun x => k))
  (at level 61, m at next level, right associativity).

(** ** Concrete registries, used to run the manager *)

Module Sample.

Definition TIMEOUT : ErrorCode := CodeString "WALLETCONNECT_TIMEOUT".

Definition timeout_error : Error :=
  {| message := "WalletConnect timed out"; code := TIMEOUT |}.

Definition rejected_error : Error :=
  {| message := "User denied account authorization"; code := CodeNumber 4001 |}.

Definition stale_error : Error :=
  {| message := "No Ethereum provider"; code := CodeUndefined |}.

Definition resolved {A : Type} (v : A) : Invocation A :=
  Returned (mkPromise 1 (Fulfilled v)).

Definition rejected {A : Type} (e : Error) : Invocation A :=
  Returned (mkPromise 1 (RejectedWith e)).

(** A connector that answers network 1 and account 0xabc. *)
Definition injected : @Connector string string :=
  {| ref := 1;
     onActivation := resolved tt;
     getLibrary := fun _ => resolved "web3";
     getNetworkId := fun _ => resolved 1%Z;
     getAccount := fun _ => resolved (AccountAddress "0xabc");
     activateAccountImmediately := true;
     listenForNetworkChanges := true;
     listenForAccountChanges := true |}.

(** The same wallet, asking for its account to be fetched later. *)
Definition lazy : @Connector string string :=
  {| ref := 2;
     onActivation := resolved tt;
     getLibrary := fun _ => resolved "web3";
     getNetworkId := fun _ => resolved 4%Z;
     getAccount := fun _ => resolved (AccountAddress "0xdef");
     activateAccountImmediately := false;
     listenForNetworkChanges := true;
     listenForAccountChanges := true |}.

(** A connector whose activation hook rejects with [e]. *)
Definition failing (e : Error) : @Connector string string :=
  {| ref := 3;
     onActivation := rejected e;
     getLibrary := fun _ => resolved "web3";
     getNetworkId := fun _ => resolved 1%Z;
     getAccount := fun _ => resolved (AccountAddress "0xabc");
     activateAccountImmediately := true;
     listenForNetworkChanges := false;
     listenForAccountChanges := false |}.

(** A connector whose network-id fetch rejects with [e]. *)
Definition offline (e : Error) : @Connector string string :=
  {| ref := 4;
     onActivation := resolved tt;
     getLibrary := fun _ => resolved "web3";
     getNetworkId := fun _ => rejected e;
     getAccount := fun _ => resolved (AccountAddress "0xabc");
     activateAccountImmediately := true;
     listenForNetworkChanges := false;
     listenForAccountChanges := false |}.

Definition registry : @Connectors string string :=
  [("injected", injected); ("lazy", lazy)].

Definition fresh : @World string :=
  {| store := initialWeb3State; trace := [] |}.

Definition at_state (s : @Web3State string) : @World string :=
  {| store := s; trace := [] |}.

(** The snapshot after [injected] was activated. *)
Definition injected_state : @Web3State string :=
  {| connectorName := Some "injected";
     library := Some "web3";
     networkId := Some 1%Z;
     account := AccountAddress "0xabc";
     error := None |}.

(** The snapshot after activating [name] failed with [e], unsuppressed. *)
Definition failed_state (name : string) (e : Error) : @Web3State string :=
  {| connectorName := Some name;
     library := None;
     networkId := None;
     account := AccountUndefined;
     error := Some e |}.

(** [lazy] active, its account fetched later through [activateAccount]. *)
Definition lazy_state : @Web3State string :=
  {| connectorName := Some "lazy";
     library := Some "web3";
     networkId := Some 4%Z;
     account := AccountAddress "0xdef";
     error := None |}.

(** Every field present, on a network whose id is 0. *)
Definition network_zero_state : @Web3State string :=
  {| connectorName := Some "injected";
     library := Some "web3";
     networkId := Some 0%Z;
     account := AccountNull;
     error := None |}.

End Sample.

(** ** Further readings of runs *)

(** The snapshot [UPDATE_CONNECTOR_VALUES] builds. *)
Definition committed {Library : Type} (name : string) (lib : Library) (net : Z)
    (acc : Account) : @Web3State Library :=
  {| connectorName := Some name;
     library := Some lib;
     networkId := Some net;
     account := acc;
     error := None |}.

(** A pending listener cleanup was asked for by the rendered state. *)
Definition listening_is_wanted {Library LibraryName : Type}
    (connectors : @Connectors Library LibraryName)
    (h : @Hook Library LibraryName) : Prop :=
  (networkListener h = true ->
   wants connectors NetworkChanged (rendered h) = true)
  /\ (accountListener h = true ->
      wants connectors AccountsChanged (rendered h) = true).

(** The state names no connector, or a key of the registry. *)
Definition named_is_registered {Library LibraryName : Type}
    (connectors : @Connectors Library LibraryName)
    (s : @Web3State Library) : Prop :=
  forall name, connectorName s = Some name -> In name (Object_keys connectors).

(** The events by which a commit removes the installed listeners. *)
Definition removals {Library LibraryName : Type}
    (h : @Hook Library LibraryName) : list (@Event Library) :=
  ((if networkListener h then [EthereumRemoveListener NetworkChanged] else [])
   ++ (if accountListener h then [EthereumRemoveListener AccountsChanged]
       else []))%list.

(** ** The re-render counters

    [useState (0)] twice: each counter has the value the running render
    closed over and the value React holds for the next render.  A number is
    an integer here; [+ 1] on a JS number is exact below 2^53. *)




(** * The injected connector

    The connector for a provider injected as [window.ethereum].  [activate],
    [getProvider], [getAccount], [deactivate], [isAuthorized] and the four
    event handlers are embedded; what they do to the outside world (calls
    on the provider, warnings, events emitted to the connector's
    subscribers) is recorded in a trace.  [getChainId] is left out: one of
    its fallbacks wraps a callback in a promise that need not ever settle,
    which completions as used here cannot express. *)

Module Injected.

(** The values a provider answers with. *)
#[local] Unset Elimination Schemes.
Inductive Json : Type :=
| JUndefined
| JNull
| JBool (b : bool)
| JNumber (n : Z)
| JString (s : string)
| JArray (items : list Json)
| JObject (fields : list (string * Json)).
#[local] Set Elimination Schemes.

(** An own property of a plain object. *)
Fixpoint field (fields : list (string * Json)) (key : string) : option Json :=
  match fields with
  | [] => None
  | (k, v) :: rest => if String.eqb k key then Some v else field rest key
  end.

(** [v.result]: the property of an object, [undefined] on an array or a
    primitive, a [TypeError] on [undefined] and [null]. *)
Definition result_of (v : Json) : Completion Json :=
  match v with
  | JUndefined | JNull =>
      Abrupt (TypeError "Cannot read property 'result' of undefined")
  | JObject fields =>
      Normal (match field fields "result" with Some r => r | None => JUndefined end)
  | _ => Normal JUndefined
  end.

(** [v[0]]. *)
Definition first (v : Json) : Completion Json :=
  match v with
  | JUndefined | JNull =>
      Abrupt (TypeError "Cannot read property '0' of undefined")
  | JArray items =>
      Normal (match items with [] => JUndefined | x :: _ => x end)
  | JString s =>
      Normal (match s with
              | EmptyString => JUndefined
              | String c _ => JString (String c EmptyString)
              end)
  | JObject fields =>
      Normal (match field fields "0" with Some x => x | None => JUndefined end)
  | JBool _ | JNumber _ => Normal JUndefined
  end.

(** [sendReturn.hasOwnProperty ('result') ? sendReturn.result : sendReturn].
    No [Json] value is a function, so an object with an own property
    [hasOwnProperty] cannot be asked. *)
Definition parseSendReturn (sendReturn : Json) : Completion Json :=
  match sendReturn with
  | JUndefined | JNull =>
      Abrupt (TypeError "Cannot read property 'hasOwnProperty' of undefined")
  | JObject fields =>
      match field fields "hasOwnProperty" with
      | Some _ => Abrupt (TypeError "sendReturn.hasOwnProperty is not a function")
      | None =>
          match field fields "result" with
          | Some r => Normal r
          | None => Normal sendReturn
          end
      end
  | _ => Normal sendReturn
  end.

(** [sendReturn => parseSendReturn (sendReturn)[0]] *)
Definition first_parsed (sendReturn : Json) : Completion Json :=
  match parseSendReturn sendReturn with
  | Normal v => first v
  | Abrupt e => Abrupt e
  end.

(** [({ result: accounts }) => accounts[0]] *)
Definition first_of_result (sendReturn : Json) : Completion Json :=
  match result_of sendReturn with
  | Normal accounts => first accounts
  | Abrupt e => Abrupt e
  end.

Definition NoEthereumProviderError : Error :=
  {| message := "No Ethereum provider was found on window.ethereum.";
     code := CodeUndefined |}.

Definition UserRejectedRequestError : Error :=
  {| message := "The user rejected the request."; code := CodeUndefined |}.

(** The connector's bound handlers, as passed to [on] and [removeListener]. *)
Inductive Handler : Type :=
| HandleChainChanged
| HandleAccountsChanged
| HandleClose
| HandleNetworkChanged.

(** What the connector tells its subscribers. *)
Inductive Update : Type :=
| ChainId (chainId : Json)
| AccountOf (account : string).

Inductive Call : Type :=
| On (event : string) (handler : Handler)
| RemoveListener (event : string) (handler : Handler)
| DisableAutoRefresh
| Send (method : string)
| Enable
| Warning (msg : string)
| ConsoleLog (msg : string)
| EmitUpdate (update : Update)
| EmitDeactivate.

(** [window.ethereum], when there is one. *)
Record Ethereum : Type := mkEthereum
  { on : bool;
    removeListener : bool;
    isMetaMask : bool;
    send : string -> Invocation Json;
    enable : Invocation Json }.

Definition P (A : Type) : Type := list Call -> Completion A * list Call.

Definition unit_ {A : Type} (a : A) : P A := fun t => (Normal a, t).

Definition raise {A : Type} (e : Error) : P A := fun t => (Abrupt e, t).

Definition and_then {A B : Type} (m : P A) (k : A -> P B) : P B :=
  fun t =>
    match m t with
    | (Normal a, t') => k a t'
    | (Abrupt e, t') => (Abrupt e, t')
    end.

Definition recover {A : Type} (body : P A) (handler : Error -> P A) : P A :=
  fun t =>
    match body t with
    | (Normal a, t') => (Normal a, t')
    | (Abrupt e, t') => handler e t'
    end.

Definition note (c : Call) : P unit := fun t => (Normal tt, t ++ [c])%list.

Definition lift {A : Type} (c : Completion A) : P A := fun t => (c, t).

Notation "x <~ m ;; k" := (and_then m (fun x => k))
  (at level 61, m at next level, right associativity).

(** Calling the provider: the call is recorded, then throws or returns its
    promise. *)
Definition request {A : Type} (c : Call) (r : Invocation A) : P (Promise A) :=
  _ <~ note c ;;
  match r with
  | Threw e => raise e
  | Returned p => unit_ p
  end.

(** [p.then (f)] *)
Definition then_ {A B : Type} (p : Promise A) (f : A -> Completion B)
  : Promise B :=
  match settlement p with
  | Fulfilled v =>
      match f v with
      | Normal b => mkPromise (settledAt p) (Fulfilled b)
      | Abrupt e => mkPromise (settledAt p) (RejectedWith e)
      end
  | RejectedWith e => mkPromise (settledAt p) (RejectedWith e)
  end.

Definition wait {A : Type} (p : Promise A) : P A :=
  match settlement p with
  | Fulfilled v => unit_ v
  | RejectedWith e => raise e
  end.

Definition when_ (b : bool) (m : P unit) : P unit :=
  if b then m else unit_ tt.

Section Connector.

(** [__DEV__], a build-time constant. *)
Variable DEV : bool.

(** [x > 0] for an [x] that is a string, an array or an object: the
    coercion to a number is left open. *)
Variable coerced_positive : Json -> bool.

Variable window_ethereum : option Ethereum.

Definition handleChainChanged (chainId : Json) : P unit :=
  _ <~ when_ DEV (note (ConsoleLog "Handling 'chainChanged' event with payload")) ;;
  note (EmitUpdate (ChainId chainId)).

Definition handleAccountsChanged (accounts : list string) : P unit :=
  _ <~ when_ DEV (note (ConsoleLog "Handling 'accountsChanged' event with payload")) ;;
  match accounts with
  | [] => note EmitDeactivate
  | a :: _ => note (EmitUpdate (AccountOf a))
  end.

Definition handleClose : P unit :=
  _ <~ when_ DEV (note (ConsoleLog "Handling 'close' event with payload")) ;;
  note EmitDeactivate.

Definition handleNetworkChanged (networkId : Json) : P unit :=
  _ <~ when_ DEV (note (ConsoleLog "Handling 'networkChanged' event with payload")) ;;
  note (EmitUpdate (ChainId networkId)).

Definition activate : P Json :=
  match window_ethereum with
  | None => raise NoEthereumProviderError
  | Some ethereum =>
      _ <~ when_ (on ethereum)
             (_ <~ note (On "chainChanged" HandleChainChanged) ;;
              _ <~ note (On "accountsChanged" HandleAccountsChanged) ;;
              _ <~ note (On "close" HandleClose) ;;
              note (On "networkChanged" HandleNetworkChanged)) ;;
      _ <~ when_ (isMetaMask ethereum) (note DisableAutoRefresh) ;;
      recover
        (p <~ request (Send "eth_requestAccounts")
                (send ethereum "eth_requestAccounts") ;;
         wait (then_ p first_parsed))
        (fun error =>
           if ErrorCode_eqb (code error) (CodeNumber 4001)
           then raise UserRejectedRequestError
           else
             _ <~ note (Warning "eth_requestAccounts was unsuccessful, falling back to enable") ;;
             p <~ request Enable (enable ethereum) ;;
             wait (then_ p first_parsed))
  end.

Definition getProvider : P (option Ethereum) := unit_ window_ethereum.

(** The promise of [send] is returned, not awaited, inside the [try]: only
    a synchronous throw of [send] reaches the [catch]. *)
Definition getAccount : P Json :=
  match window_ethereum with
  | None => raise NoEthereumProviderError
  | Some ethereum =>
      p <~ recover
             (p <~ request (Send "eth_accounts") (send ethereum "eth_accounts") ;;
              unit_ (then_ p first_of_result))
             (fun _ =>
                _ <~ note (Warning "eth_accounts was unsuccessful, falling back to enable") ;;
                p <~ request Enable (enable ethereum) ;;
                unit_ (then_ p first_parsed)) ;;
      wait p
  end.

Definition deactivate : P unit :=
  match window_ethereum with
  | None => unit_ tt
  | Some ethereum =>
      when_ (removeListener ethereum)
        (_ <~ note (RemoveListener "chainChanged" HandleChainChanged) ;;
         _ <~ note (RemoveListener "accountsChanged" HandleAccountsChanged) ;;
         _ <~ note (RemoveListener "close" HandleClose) ;;
         note (RemoveListener "networkChanged" HandleNetworkChanged))
  end.

(** [v.length > 0] *)
Definition has_length (v : Json) : Completion bool :=
  match v with
  | JUndefined | JNull =>
      Abrupt (TypeError "Cannot read property 'length' of undefined")
  | JArray items => Normal (Nat.ltb 0 (List.length items))
  | JString s => Normal (Nat.ltb 0 (String.length s))
  | JObject fields =>
      Normal (match field fields "length" with
              | Some (JNumber n) => Z.ltb 0 n
              | Some (JBool b) => b
              | Some JNull | Some JUndefined | None => false
              | Some x => coerced_positive x
              end)
  | JBool _ | JNumber _ => Normal false
  end.

Definition isAuthorized : P bool :=
  match window_ethereum with
  | None => unit_ false
  | Some ethereum =>
      recover
        (p <~ request (Send "eth_accounts") (send ethereum "eth_accounts") ;;
         wait (then_ p (fun sendReturn =>
                          match parseSendReturn sendReturn with
                          | Normal v => has_length v
                          | Abrupt e => Abrupt e
                          end)))
        (fun _ => unit_ false)
  end.

End Connector.

(** ** Reading the connector's traces *)

(** What a call of a provider method, followed by [.then (f)], settles as. *)
Definition answered {A B : Type} (r : Invocation A) (f : A -> Completion B)
  : Settled B :=
  match r with
  | Threw e => RejectedWith e
  | Returned p => settlement (then_ p f)
  end.

(** The four subscriptions of the connector. *)
Definition subscriptions : list (string * Handler) :=
  [("chainChanged", HandleChainChanged);
   ("accountsChanged", HandleAccountsChanged);
   ("close", HandleClose);
   ("networkChanged", HandleNetworkChanged)].

(** What [activate] does before it asks for the accounts. *)
Definition preamble (ethereum : Ethereum) : list Call :=
  ((if on ethereum then map (fun s => On (fst s) (snd s)) subscriptions else [])
   ++ (if isMetaMask ethereum then [DisableAutoRefresh] else []))%list.

Definition registered (calls : list Call) : list (string * Handler) :=
  flat_map (fun c => match c with On ev h => [(ev, h)] | _ => [] end) calls.

Definition removed (calls : list Call) : list (string * Handler) :=
  flat_map (fun c => match c with RemoveListener ev h => [(ev, h)] | _ => [] end)
           calls.

Definition fallback_warning : Call :=
  Warning "eth_requestAccounts was unsuccessful, falling back to enable".

End Injected.

(** ** More sample registries and providers *)

Module Scenario.

(** A connector that defers its account and whose account accessor then
    rejects with [e]. *)
Definition locked (e : Error) : @Connector string string :=
  {| ref := 5;
     onActivation := Sample.resolved tt;
     getLibrary := fun _ => Sample.resolved "web3";
     getNetworkId := fun _ => Sample.resolved 4%Z;
     getAccount := fun _ => Sample.rejected e;
     activateAccountImmediately := false;
     listenForNetworkChanges := true;
     listenForAccountChanges := true |}.

(** A connector whose account fetch, made during activation, rejects with
    [e]. *)
Definition accountless (e : Error) : @Connector string string :=
  {| ref := 6;
     onActivation := Sample.resolved tt;
     getLibrary := fun _ => Sample.resolved "web3";
     getNetworkId := fun _ => Sample.resolved 1%Z;
     getAccount := fun _ => Sample.rejected e;
     activateAccountImmediately := true;
     listenForNetworkChanges := true;
     listenForAccountChanges := true |}.

Definition registry : @Connectors string string :=
  [("injected", Sample.injected);
   ("lazy", Sample.lazy);
   ("locked", locked Sample.rejected_error);
   ("wc", Sample.failing Sample.rejected_error);
   ("offline", Sample.offline Sample.stale_error)].

(** [name] active, its account still to be activated. *)
Definition pending_state (name : string) : @Web3State string :=
  committed name "web3" 4%Z AccountNull.

(** A hook that rendered [s] and holds no cleanup. *)
Definition idle_hook (s : @Web3State string) : @Hook string string :=
  {| rendered := s;
     deactivates := None;
     networkListener := false;
     accountListener := false |}.

(** The hook after [injected] was activated and committed. *)
Definition connected : @Hook string string * @World string :=
  run Sample.TIMEOUT registry "web3.js"
    [Perform (SetConnector "injected" true); Render true].

Definition denied : Error :=
  {| message := "User denied account authorization"; code := CodeNumber 4001 |}.

(** A provider whose user refuses every request. *)
Definition refusing : Injected.Ethereum :=
  {| Injected.on := true;
     Injected.removeListener := true;
     Injected.isMetaMask := true;
     Injected.send := fun _ => Sample.rejected denied;
     Injected.enable := Sample.rejected denied |}.

(** A provider that answers [eth_requestAccounts] with no result and
    refuses [enable]. *)
Definition malformed : Injected.Ethereum :=
  {| Injected.on := true;
     Injected.removeListener := false;
     Injected.isMetaMask := false;
     Injected.send :=
       fun _ => Sample.resolved (Injected.JObject [("result", Injected.JNull)]);
     Injected.enable := Sample.rejected denied |}.

(** A provider that answers with the bare array of accounts. *)
Definition bare : Injected.Ethereum :=
  {| Injected.on := true;
     Injected.removeListener := true;
     Injected.isMetaMask := false;
     Injected.send :=
       fun _ => Sample.resolved (Injected.JArray [Injected.JString "0xabc"]);
     Injected.enable :=
       Sample.resolved (Injected.JArray [Injected.JString "0xabc"]) |}.

End Scenario.

(** ** Basic facts about the value layer *)

Lemma ErrorCode_eqb_eq (a b : ErrorCode) : ErrorCode_eqb a b = true <-> a = b.
Proof.
  destruct a, b; simpl; split; intro H; try discriminate; try reflexivity.
  - apply Z.eqb_eq in H; now subst.
  - injection H as ->; apply Z.eqb_refl.
  - apply String.eqb_eq in H; now subst.
  - injection H as ->; apply String.eqb_refl.
Qed.

Lemma ErrorCode_eqb_neq (a b : ErrorCode) : ErrorCode_eqb a b = false <-> a <> b.
Proof.
  split.
  - intros H E. apply ErrorCode_eqb_eq in E. congruence.
  - intro N. destruct (ErrorCode_eqb a b) eqn:E; [|reflexivity].
    apply ErrorCode_eqb_eq in E. contradiction.
Qed.

Lemma truthy_string_spec (s : option string) :
  truthy_string s = true <-> exists n, s = Some n /\ n <> "".
Proof.
  destruct s as [n|]; simpl.
  - rewrite negb_true_iff. split.
    + intro H. exists n. split; [reflexivity|]. now apply String.eqb_neq.
    + intros (m & [= <-] & N). now apply String.eqb_neq.
  - split; [discriminate|]. intros (n & H & _). discriminate.
Qed.

Lemma truthy_number_spec (k : option Z) :
  truthy_number k = true <-> exists n, k = Some n /\ n <> 0%Z.
Proof.
  destruct k as [n|]; simpl.
  - rewrite negb_true_iff. split.
    + intro H. exists n. split; [reflexivity|]. now apply Z.eqb_neq.
    + intros (m & [= <-] & N). now apply Z.eqb_neq.
  - split; [discriminate|]. intros (n & H & _). discriminate.
Qed.

Lemma is_some_spec {A : Type} (o : option A) :
  is_some o = true <-> exists a, o = Some a.
Proof.
  destruct o as [a|]; simpl; split; try discriminate.
  - intros _. now exists a.
  - reflexivity.
  - intros (a & H). discriminate.
Qed.

Lemma includes_In (l : list string) (x : string) :
  includes l x = true <-> In x l.
Proof.
  unfold includes. rewrite existsb_exists. split.
  - intros (y & Hy & E). apply String.eqb_eq in E. now subst.
  - intro H. exists x. split; [assumption|apply String.eqb_refl].
Qed.

Section Properties.

Context {Library LibraryName : Type}.
Variable WALLETCONNECT_TIMEOUT : ErrorCode.
Variable connectors : @Connectors Library LibraryName.
Variable libraryName : LibraryName.

Abbreviation State := (@Web3State Library).
Abbreviation W := (@World Library).
Abbreviation operation_event :=
  (fun ev : @Event Library => from_operation ev = true).

(** A name that [lookup] finds is one of [Object.keys]. *)
Lemma lookup_includes (cs : @Connectors Library LibraryName) (name : string)
    (c : Connector) :
  lookup cs name = Some c -> includes (Object_keys cs) name = true.
Proof.
  induction cs as [|[k c'] rest IH]; simpl; [discriminate|].
  unfold includes in *. simpl.
  rewrite (String.eqb_sym name k).
  destruct (String.eqb k name); [reflexivity|]. exact IH.
Qed.

Lemma is_current_spec (s : State) (name : string) :
  is_current s name = true <-> connectorName s = Some name.
Proof.
  unfold is_current. destruct (connectorName s) as [current|].
  - rewrite String.eqb_eq. split; [now intros ->|now intros [= ->]].
  - split; discriminate.
Qed.

Lemma is_current_false (s : State) (name : string) :
  connectorName s <> Some name -> is_current s name = false.
Proof.
  intro N. destruct (is_current s name) eqn:E; [|reflexivity].
  apply is_current_spec in E. contradiction.
Qed.

(** Past its two guards, [setConnector] is [initializeConnectorValues]. *)
Lemma setConnector_proceeds (s : State) (name : string) (c : Connector)
    (suppress : bool) (w : W) :
  lookup connectors name = Some c ->
  connectorName s <> Some name ->
  setConnector WALLETCONNECT_TIMEOUT connectors libraryName s name suppress w
  = initializeConnectorValues WALLETCONNECT_TIMEOUT connectors libraryName
      name suppress w.
Proof.
  intros L N. unfold setConnector.
  rewrite (lookup_includes _ _ _ L), (is_current_false _ _ N). reflexivity.
Qed.

(** ** The error-processing policy *)

Lemma processError_timeout (e : Error) (name : option string) (w : W) :
  code e = WALLETCONNECT_TIMEOUT ->
  processError WALLETCONNECT_TIMEOUT e name w = (Normal None, w).
Proof.
  intro H. unfold processError.
  apply ErrorCode_eqb_eq in H. now rewrite H.
Qed.

Lemma processError_other (e : Error) (name : option string) (w : W) :
  code e <> WALLETCONNECT_TIMEOUT ->
  processError WALLETCONNECT_TIMEOUT e name w
  = (Abrupt e,
     {| store := web3StateReducer (store w) (error_action e name);
        trace := trace w ++ [Dispatched (error_action e name)] |}).
Proof.
  intro H. unfold processError, error_action.
  apply ErrorCode_eqb_neq in H. rewrite H.
  destruct name as [n|]; [destruct (String.eqb n "")|]; reflexivity.
Qed.

(** C10: [processError] never returns a defined value.  On the timeout code
    it returns [undefined] and dispatches nothing; on any other error it
    dispatches the error (scoped to the name when one is given) and throws
    it.  Hence the statement [if (processedError) throw processedError] of
    both callers never throws: each catch handler behaves as if the
    statement were not there. *)
Theorem processError_never_returns_an_error :
  forall (e : Error) (name : option string) (w : W),
    (code e = WALLETCONNECT_TIMEOUT ->
       processError WALLETCONNECT_TIMEOUT e name w = (Normal None, w))
    /\ (code e <> WALLETCONNECT_TIMEOUT ->
          exists a : Action,
            (a = UPDATE_ERROR e \/ exists n, a = UPDATE_ERROR_WITH_NAME e n)
            /\ processError WALLETCONNECT_TIMEOUT e name w
               = (Abrupt e,
                  {| store := web3StateReducer (store w) a;
                     trace := trace w ++ [Dispatched a] |}))
    /\ (forall (returned : Error) (w' : W),
          processError WALLETCONNECT_TIMEOUT e name w
          <> (Normal (Some returned), w'))
    /\ unsuppressed WALLETCONNECT_TIMEOUT e name w
       = (_ <- processError WALLETCONNECT_TIMEOUT e name ;; ret tt) w.
Proof.
  intros e name w.
  destruct (ErrorCode_eqb (code e) WALLETCONNECT_TIMEOUT) eqn:E.
  - apply ErrorCode_eqb_eq in E.
    pose proof (processError_timeout e name w E) as P.
    repeat split.
    + intros _. exact P.
    + intro N. contradiction.
    + intros r w'. rewrite P. discriminate.
    + unfold unsuppressed, bind. rewrite P. reflexivity.
  - apply ErrorCode_eqb_neq in E.
    pose proof (processError_other e name w E) as P.
    repeat split.
    + intro N. contradiction.
    + intros _. exists (error_action e name). split; [|exact P].
      unfold error_action. destruct name as [n|]; [|now left].
      destruct (String.eqb n ""); [now left|right; now exists n].
    + intros r w'. rewrite P. discriminate.
    + unfold unsuppressed, bind. rewrite P. reflexivity.
Qed.

Lemma catch_handlers_are_unsuppressed (name : string) (suppress : bool) :
  initializeConnectorValues WALLETCONNECT_TIMEOUT connectors libraryName
    name suppress
  = try_catch
      (match lookup connectors name with
       | Some connector => activation libraryName connector name
       | None => throw (TypeError "Cannot read property 'onActivation' of undefined")
       end)
      (fun e => if suppress then throw e else unsuppressed WALLETCONNECT_TIMEOUT e (Some name)).
Proof. reflexivity. Qed.

Lemma activateAccount_catch_is_unsuppressed (s : State) (c : Connector)
    (lib : Library) (suppress : bool) :
  web3Initialized s = true ->
  account s = AccountNull ->
  activeConnector connectors s = Some c ->
  library s = Some lib ->
  activateAccount WALLETCONNECT_TIMEOUT connectors s suppress
  = (p <- invoke c GetAccount (getAccount c lib) ;;
     try_catch
       (acc <- await p ;; dispatchWeb3State (UPDATE_ACCOUNT acc))
       (fun e => if suppress then throw e
                 else unsuppressed WALLETCONNECT_TIMEOUT e None)).
Proof.
  intros I A C L. unfold activateAccount. rewrite I, A, C, L. reflexivity.
Qed.

(** ** The derived flag *)

(** C4, as the code has it: [web3Initialized] is the JS truthiness of the
    conjunction, so it holds exactly when [connectorName] is a non-empty
    string, [library] is present, [networkId] is present and not zero,
    [account] is not [undefined] ([null] allowed) and [error] is [null]; in
    particular it is false whenever [error] is set. *)
Theorem web3Initialized_iff_truthy :
  forall s : State,
    (web3Initialized s = true <->
       (exists name, connectorName s = Some name /\ name <> "")
       /\ (exists lib, library s = Some lib)
       /\ (exists net, networkId s = Some net /\ net <> 0%Z)
       /\ account s <> AccountUndefined
       /\ error s = None)
    /\ (forall e, error s = Some e -> web3Initialized s = false).
Proof.
  intro s. unfold web3Initialized. split.
  - rewrite !andb_true_iff, !negb_true_iff.
    rewrite truthy_string_spec, truthy_number_spec, is_some_spec.
    assert (A : Account_is_undefined (account s) = false
                <-> account s <> AccountUndefined)
      by (destruct (account s); simpl; split; congruence).
    assert (E : is_some (error s) = false <-> error s = None)
      by (destruct (error s); simpl; split; congruence).
    rewrite A, E. tauto.
  - intros e He. rewrite He. simpl. now rewrite andb_false_r.
Qed.

(** ** Guards that make an operation a no-op *)

(** C5: a name that is not a key of the registry, or that is the snapshot's
    current [connectorName], makes [setConnector] log one console message
    and return: the promise resolves, the store is untouched and no action
    is dispatched, whatever [suppressGlobalError] is. *)
Theorem setConnector_guarded_is_noop :
  forall (s : State) (name : string) (suppress : bool) (w : W),
    ~ In name (Object_keys connectors) \/ connectorName s = Some name ->
    exists msg,
      setConnector WALLETCONNECT_TIMEOUT connectors libraryName s name suppress w
      = (Normal tt, {| store := store w; trace := trace w ++ [ConsoleError msg] |}).
Proof.
  intros s name suppress w H. unfold setConnector.
  destruct (includes (Object_keys connectors) name) eqn:I; simpl.
  - destruct H as [H|H].
    + apply includes_In in I. contradiction.
    + apply is_current_spec in H. rewrite H. eexists. reflexivity.
  - eexists. reflexivity.
Qed.

(** C7: [activateAccount] is a no-op when the manager is not initialized,
    when the snapshot's account is not [null], or when there is no active
    connector or no library: one console message, a resolved promise, the
    store untouched, no connector method called. *)
Theorem activateAccount_guarded_is_noop :
  forall (s : State) (suppress : bool) (w : W),
    web3Initialized s = false
    \/ account s <> AccountNull
    \/ activeConnector connectors s = None
    \/ library s = None ->
    exists msg,
      activateAccount WALLETCONNECT_TIMEOUT connectors s suppress w
      = (Normal tt, {| store := store w; trace := trace w ++ [ConsoleError msg] |}).
Proof.
  intros s suppress w H. unfold activateAccount.
  destruct (web3Initialized s) eqn:I; simpl; [|eexists; reflexivity].
  destruct (Account_is_null (account s)) eqn:A; simpl; [|eexists; reflexivity].
  destruct H as [H|[H|[H|H]]].
  - discriminate.
  - destruct (account s); simpl in A; congruence.
  - rewrite H. eexists. reflexivity.
  - rewrite H. destruct (activeConnector connectors s); eexists; reflexivity.
Qed.

(** ** Listener handlers *)

(** C8: the account listener dispatches [UPDATE_ACCOUNT] with the head of
    the reported list and nothing else.  For the empty list the payload is
    [undefined]: the store's account becomes absent while every other field
    is kept, so this is neither [null] nor a reset. *)
Theorem accountsChanged_takes_first_account :
  forall (s : State) (accounts : list string) (w : W),
    accountsChangedListenerHandler (Library := Library) accounts w
    = (Normal tt,
       {| store := web3StateReducer (store w)
                     (UPDATE_ACCOUNT (first_account accounts));
          trace := trace w
                   ++ [Dispatched (UPDATE_ACCOUNT (first_account accounts))] |})
    /\ match accounts with
       | a :: _ => first_account accounts = AccountAddress a
       | [] => first_account accounts = AccountUndefined
       end
    /\ web3StateReducer s (UPDATE_ACCOUNT (first_account []))
       = {| connectorName := connectorName s;
            library := library s;
            networkId := networkId s;
            account := AccountUndefined;
            error := error s |}
    /\ first_account [] <> AccountNull
    /\ UPDATE_ACCOUNT (Library := Library) (first_account accounts) <> RESET.
Proof.
  intros s accounts w. repeat split; try discriminate.
  destruct accounts; reflexivity.
Qed.

(** ** The activation sequence *)

(** Running a connector call whose outcome is known. *)
Lemma invoke_await_rejected {A : Type} (c : Connector (Library := Library)
      (LibraryName := LibraryName)) (m : Method) (r : Invocation A)
    (e : Error) (w : W) :
  outcome r = RejectedWith e ->
  (p <- invoke c m r ;; await p) w
  = (Abrupt e, {| store := store w; trace := trace w ++ [Called (ref c) m] |}).
Proof.
  intro H. unfold bind, invoke, emit, await.
  destruct r as [e0|p]; simpl in *.
  - now injection H as ->.
  - rewrite H. reflexivity.
Qed.

Lemma invoke_await_fulfilled {A : Type} (c : Connector (Library := Library)
      (LibraryName := LibraryName)) (m : Method) (r : Invocation A)
    (v : A) (w : W) :
  outcome r = Fulfilled v ->
  (p <- invoke c m r ;; await p) w
  = (Normal v, {| store := store w; trace := trace w ++ [Called (ref c) m] |}).
Proof.
  intro H. unfold bind, invoke, emit, await.
  destruct r as [e0|p]; simpl in *.
  - discriminate.
  - rewrite H. reflexivity.
Qed.

(** [activation] begins with the awaited activation hook. *)
Lemma activation_unfold (c : Connector) (name : string) (w : W) :
  activation libraryName c name w
  = match (p <- invoke c OnActivation (onActivation c) ;; await p) w with
    | (Normal _, w1) =>
        match (pl <- invoke c GetLibrary (getLibrary c libraryName) ;;
               await pl) w1 with
        | (Normal lib, w2) =>
            (pn <- invoke c GetNetworkId (getNetworkId c lib) ;;
             pa <- (if activateAccountImmediately c
                    then invoke c GetAccount (getAccount c lib)
                    else ret (Promise_resolve AccountNull)) ;;
             r <- await (Promise_all pn pa) ;;
             dispatchWeb3State
               (UPDATE_CONNECTOR_VALUES name lib (fst r) (snd r))) w2
        | (Abrupt e, w2) => (Abrupt e, w2)
        end
    | (Abrupt e, w1) => (Abrupt e, w1)
    end.
Proof.
  unfold activation, bind.
  destruct (invoke c OnActivation (onActivation c) w) as [[p|e] w1];
    [|reflexivity].
  destruct (await p w1) as [[u|e] w1']; [|reflexivity].
  destruct (invoke c GetLibrary (getLibrary c libraryName) w1')
    as [[pl|e] w2]; [|reflexivity].
  destruct (await pl w2) as [[lib|e] w2']; reflexivity.
Qed.

Lemma activation_hook_rejected (c : Connector) (name : string) (e : Error)
    (w : W) :
  outcome (onActivation c) = RejectedWith e ->
  activation libraryName c name w
  = (Abrupt e,
     {| store := store w; trace := trace w ++ [Called (ref c) OnActivation] |}).
Proof.
  intro H. rewrite activation_unfold.
  now rewrite (invoke_await_rejected c OnActivation _ e w H).
Qed.

Ltac calls_only :=
  let ev := fresh "ev" in
  let H := fresh "H" in
  intros ev H; simpl in H;
  repeat (destruct H as [H|H]; [subst ev; eexists; eexists; reflexivity|]);
  contradiction.

Ltac traced_calls :=
  simpl; rewrite <- ?app_assoc; simpl;
  eexists; split; [reflexivity|calls_only].

(** A failing activation sequence has dispatched nothing: the one dispatch
    is its last step. *)
Lemma activation_abrupt (c : Connector) (name : string) (e : Error)
    (w w1 : W) :
  activation libraryName c name w = (Abrupt e, w1) ->
  store w1 = store w
  /\ raised_by libraryName c e
  /\ exists calls, trace w1 = (trace w ++ calls)%list /\ only_calls calls.
Proof.
  rewrite activation_unfold. unfold raised_by.
  destruct (outcome (onActivation c)) as [u|e0] eqn:O.
  2:{ rewrite (invoke_await_rejected c OnActivation _ e0 w O).
      intros [= <- <-]. split; [reflexivity|]. split; [now left|].
      traced_calls. }
  rewrite (invoke_await_fulfilled c OnActivation _ u w O).
  destruct (outcome (getLibrary c libraryName)) as [lib|e0] eqn:L.
  2:{ rewrite (invoke_await_rejected c GetLibrary _ e0 _ L).
      intros [= <- <-]. split; [reflexivity|].
      split; [right; now left|]. traced_calls. }
  rewrite (invoke_await_fulfilled c GetLibrary _ lib _ L).
  unfold bind, invoke, emit, await, ret, throw, dispatchWeb3State; simpl.
  destruct (getNetworkId c lib) as [en|pn] eqn:N.
  { intros [= <- <-]. split; [reflexivity|].
    split; [right; right; left; exists lib; now rewrite N|].
    traced_calls. }
  assert (outcome (getNetworkId c lib) = settlement pn) as ON by now rewrite N.
  destruct (activateAccountImmediately c).
  - simpl. destruct (getAccount c lib) as [ea|pa] eqn:A.
    { intros [= <- <-]. split; [reflexivity|].
      split; [right; right; right; exists lib; now rewrite A|].
      traced_calls. }
    assert (outcome (getAccount c lib) = settlement pa) as OA by now rewrite A.
    unfold Promise_all.
    destruct pn as [tn [n|e1]], pa as [ta [a|e2]]; simpl in *;
      try destruct (Nat.leb tn ta); simpl;
      try (intro X; discriminate X);
      intros [= <- <-];
      (split; [reflexivity|]);
      (split; [first [ right; right; left; exists lib; exact ON
                     | right; right; right; exists lib; exact OA ]|]);
      traced_calls.
  - unfold Promise_all, Promise_resolve; simpl.
    destruct pn as [tn [n|e1]]; simpl in *;
      try (intro X; discriminate X).
    intros [= <- <-].
    split; [reflexivity|].
    split; [right; right; left; exists lib; exact ON|].
    traced_calls.
Qed.

Lemma only_calls_no_dispatch (evs : list (@Event Library)) :
  only_calls evs -> no_dispatch evs.
Proof.
  intros H a I. destruct (H _ I) as (r & m & E). discriminate.
Qed.

(** What [raises] tells is what the [try] block does: it fails with that
    error, having dispatched nothing. *)
Lemma raises_activation (c : Connector) (name : string) (e : Error) (w : W) :
  raises libraryName c e ->
  exists w1, activation libraryName c name w = (Abrupt e, w1).
Proof.
  intro R. rewrite activation_unfold.
  destruct R as [O|u O L|u lib O L N|u lib pn O L N F S
                |u lib pn pa a O L N F A S S'|u lib pn pa e' O L N F A S S' T
                |u lib pn O L N F A|u lib pn pa n O L N F A S S'
                |u lib pn pa e' O L N F A S S' T].
  - rewrite (invoke_await_rejected c OnActivation _ e w O).
    eexists; reflexivity.
  - rewrite (invoke_await_fulfilled c OnActivation _ u w O).
    rewrite (invoke_await_rejected c GetLibrary _ e _ L).
    eexists; reflexivity.
  - rewrite (invoke_await_fulfilled c OnActivation _ u w O).
    rewrite (invoke_await_fulfilled c GetLibrary _ lib _ L).
    unfold bind, invoke, emit, throw. rewrite N. eexists; reflexivity.
  - rewrite (invoke_await_fulfilled c OnActivation _ u w O).
    rewrite (invoke_await_fulfilled c GetLibrary _ lib _ L).
    unfold bind, invoke, emit, await, ret, throw. rewrite N, F. simpl.
    unfold Promise_all, Promise_resolve. rewrite S. simpl.
    eexists; reflexivity.
  - rewrite (invoke_await_fulfilled c OnActivation _ u w O).
    rewrite (invoke_await_fulfilled c GetLibrary _ lib _ L).
    unfold bind, invoke, emit, await, ret, throw. rewrite N, F, A. simpl.
    unfold Promise_all. rewrite S, S'. simpl. eexists; reflexivity.
  - rewrite (invoke_await_fulfilled c OnActivation _ u w O).
    rewrite (invoke_await_fulfilled c GetLibrary _ lib _ L).
    unfold bind, invoke, emit, await, ret, throw. rewrite N, F, A. simpl.
    unfold Promise_all. rewrite S, S'.
    apply Nat.leb_le in T. rewrite T. simpl. eexists; reflexivity.
  - rewrite (invoke_await_fulfilled c OnActivation _ u w O).
    rewrite (invoke_await_fulfilled c GetLibrary _ lib _ L).
    unfold bind, invoke, emit, await, ret, throw. rewrite N, F, A. simpl.
    eexists; reflexivity.
  - rewrite (invoke_await_fulfilled c OnActivation _ u w O).
    rewrite (invoke_await_fulfilled c GetLibrary _ lib _ L).
    unfold bind, invoke, emit, await, ret, throw. rewrite N, F, A. simpl.
    unfold Promise_all. rewrite S, S'. simpl. eexists; reflexivity.
  - rewrite (invoke_await_fulfilled c OnActivation _ u w O).
    rewrite (invoke_await_fulfilled c GetLibrary _ lib _ L).
    unfold bind, invoke, emit, await, ret, throw. rewrite N, F, A. simpl.
    unfold Promise_all. rewrite S, S'.
    apply Nat.leb_gt in T. rewrite T. simpl. eexists; reflexivity.
Qed.

(** Conversely, the [try] block fails with no error but one a step raised. *)
Lemma activation_raises (c : Connector) (name : string) (e : Error)
    (w w1 : W) :
  activation libraryName c name w = (Abrupt e, w1) -> raises libraryName c e.
Proof.
  rewrite activation_unfold.
  destruct (outcome (onActivation c)) as [u|e0] eqn:O.
  2:{ rewrite (invoke_await_rejected c OnActivation _ e0 w O).
      intros [= <- _]. now apply raises_hook. }
  rewrite (invoke_await_fulfilled c OnActivation _ u w O).
  destruct (outcome (getLibrary c libraryName)) as [lib|e0] eqn:L.
  2:{ rewrite (invoke_await_rejected c GetLibrary _ e0 _ L).
      intros [= <- _]. now apply (raises_library _ c e0 u). }
  rewrite (invoke_await_fulfilled c GetLibrary _ lib _ L).
  unfold bind, invoke, emit, await, ret, throw, dispatchWeb3State; simpl.
  destruct (getNetworkId c lib) as [en|pn] eqn:N.
  { intros [= <- _]. now apply (raises_network_throw _ c en u lib). }
  destruct (activateAccountImmediately c) eqn:F.
  - simpl. destruct (getAccount c lib) as [ea|pa] eqn:A.
    { intros [= <- _]. now apply (raises_account_throw _ c ea u lib pn). }
    unfold Promise_all.
    destruct pn as [tn [n|e1]], pa as [ta [a|e2]]; simpl.
    + intro X; discriminate X.
    + intros [= <- _].
      exact (raises_account_only _ c e2 u lib _ _ n O L N F A eq_refl eq_refl).
    + intros [= <- _].
      exact (raises_network_only _ c e1 u lib _ _ a O L N F A eq_refl eq_refl).
    + destruct (Nat.leb tn ta) eqn:T; simpl; intros [= <- _].
      * apply Nat.leb_le in T.
        exact (raises_network_first _ c e1 u lib _ _ e2 O L N F A
                 eq_refl eq_refl T).
      * apply Nat.leb_gt in T.
        exact (raises_account_first _ c e2 u lib _ _ e1 O L N F A
                 eq_refl eq_refl T).
  - unfold Promise_all, Promise_resolve; simpl.
    destruct pn as [tn [n|e1]]; simpl.
    + intro X; discriminate X.
    + intros [= <- _].
      exact (raises_network_alone _ c e1 u lib _ O L N F eq_refl).
Qed.

(** ** Failures of [setConnector] *)

(** C1, as the code has it: for a connector registered under a non-empty
    name other than the snapshot's current [connectorName], whose activation
    hook rejects with an error whose code is not the timeout code,
    [setConnector (name, false)] rejects with that error after dispatching
    [UPDATE_ERROR_WITH_NAME]: the store then has [error] equal to the error
    and [connectorName] equal to the attempted name. *)
Theorem setConnector_unsuppressed_failure_is_committed :
  forall (s : State) (name : string) (c : Connector) (e : Error) (w : W),
    lookup connectors name = Some c ->
    name <> "" ->
    connectorName s <> Some name ->
    outcome (onActivation c) = RejectedWith e ->
    code e <> WALLETCONNECT_TIMEOUT ->
    exists w',
      setConnector WALLETCONNECT_TIMEOUT connectors libraryName s name false w
      = (Abrupt e, w')
      /\ error (store w') = Some e
      /\ connectorName (store w') = Some name
      /\ store w' = web3StateReducer (store w) (UPDATE_ERROR_WITH_NAME e name)
      /\ trace w' = (trace w ++ [Called (ref c) OnActivation;
                                 Dispatched (UPDATE_ERROR_WITH_NAME e name)])%list.
Proof.
  intros s name c e w L NE N O C.
  rewrite (setConnector_proceeds s name c false w L N).
  unfold initializeConnectorValues, try_catch. rewrite L.
  rewrite (activation_hook_rejected c name e w O).
  unfold bind. rewrite (processError_other e (Some name) _ C).
  unfold error_action. apply String.eqb_neq in NE. rewrite NE. simpl.
  eexists. split; [reflexivity|]. simpl. rewrite <- app_assoc.
  repeat split.
Qed.

(** C2: when the activation hook of a registered connector rejects with the
    timeout code, [setConnector (name, false)] resolves and leaves the store
    as it was (so an [error] that was [null] stays [null]); nothing is
    dispatched.  This holds for every snapshot, the current name included. *)
Theorem setConnector_swallows_timeout :
  forall (s : State) (name : string) (c : Connector) (e : Error) (w : W),
    lookup connectors name = Some c ->
    outcome (onActivation c) = RejectedWith e ->
    code e = WALLETCONNECT_TIMEOUT ->
    exists w',
      setConnector WALLETCONNECT_TIMEOUT connectors libraryName s name false w
      = (Normal tt, w')
      /\ store w' = store w
      /\ (error (store w) = None -> error (store w') = None)
      /\ exists evs, trace w' = (trace w ++ evs)%list /\ no_dispatch evs.
Proof.
  intros s name c e w L O C.
  destruct (is_current s name) eqn:Cur.
  - unfold setConnector. rewrite (lookup_includes _ _ _ L), Cur. simpl.
    eexists. split; [reflexivity|]. simpl. repeat split; [tauto|].
    eexists. split; [reflexivity|].
    intros a [H|[]]. discriminate.
  - assert (N : connectorName s <> Some name).
    { intro H. apply is_current_spec in H. congruence. }
    rewrite (setConnector_proceeds s name c false w L N).
    unfold initializeConnectorValues, try_catch. rewrite L.
    rewrite (activation_hook_rejected c name e w O).
    unfold bind. rewrite (processError_timeout e (Some name) _ C). simpl.
    eexists. split; [reflexivity|]. simpl. repeat split; [tauto|].
    eexists. split; [reflexivity|].
    intros a [H|[]]. discriminate.
Qed.

(** C3: with [suppressGlobalError = true] an error raised at any step of the
    activation sequence (by the activation hook, the library fetch, the
    network-id fetch or the account fetch, the earlier one when both of the
    joined fetches reject) is what the promise of
    [initializeConnectorValues] rejects with, unmodified, and the store is
    not touched: nothing was dispatched before the failure and the catch
    block dispatches nothing.  [setConnector] runs that sequence, with the
    same result, for every snapshot whose current name is another one (a
    call stopped by a guard runs no step and raises nothing). *)
Theorem setConnector_suppressed_failure_is_atomic :
  forall (name : string) (c : Connector) (e : Error) (w : W),
    lookup connectors name = Some c ->
    raises libraryName c e ->
    exists w1,
      initializeConnectorValues WALLETCONNECT_TIMEOUT connectors libraryName
        name true w
      = (Abrupt e, w1)
      /\ (forall s : State,
            connectorName s <> Some name ->
            setConnector WALLETCONNECT_TIMEOUT connectors libraryName
              s name true w
            = (Abrupt e, w1))
      /\ store w1 = store w
      /\ exists evs, trace w1 = (trace w ++ evs)%list /\ no_dispatch evs.
Proof.
  intros name c e w L R.
  destruct (raises_activation c name e w R) as (w1 & A). exists w1.
  assert (I : initializeConnectorValues WALLETCONNECT_TIMEOUT connectors
                libraryName name true w = (Abrupt e, w1)).
  { unfold initializeConnectorValues, try_catch. now rewrite L, A. }
  split; [exact I|]. split.
  - intros s N. now rewrite (setConnector_proceeds s name c true w L N).
  - destruct (activation_abrupt c name e w w1 A) as (S & _ & evs & T & O).
    split; [exact S|].
    exists evs. split; [assumption|]. now apply only_calls_no_dispatch.
Qed.

(** ** Deferred account activation *)

Ltac traced_without_fetch :=
  simpl; rewrite <- ?app_assoc; simpl;
  eexists; split;
  [reflexivity
  |let r := fresh "r" in
   let H := fresh "H" in
   intros r H; simpl in H;
   repeat (destruct H as [H|H]; [discriminate H|]); contradiction].

Lemma activation_deferred_never_fetches (c : Connector) (name : string)
    (w : W) :
  activateAccountImmediately c = false ->
  exists evs,
    trace (snd (activation libraryName c name w)) = (trace w ++ evs)%list
    /\ no_account_fetch evs.
Proof.
  intro F. rewrite activation_unfold.
  destruct (outcome (onActivation c)) as [u|e0] eqn:O.
  2:{ rewrite (invoke_await_rejected c OnActivation _ e0 w O).
      traced_without_fetch. }
  rewrite (invoke_await_fulfilled c OnActivation _ u w O).
  destruct (outcome (getLibrary c libraryName)) as [lib|e0] eqn:L.
  2:{ rewrite (invoke_await_rejected c GetLibrary _ e0 _ L).
      traced_without_fetch. }
  rewrite (invoke_await_fulfilled c GetLibrary _ lib _ L).
  unfold bind, invoke, emit, await, ret, throw, dispatchWeb3State; simpl.
  rewrite F.
  destruct (getNetworkId c lib) as [en|[tn [n|e1]]];
    unfold Promise_all, Promise_resolve; simpl; traced_without_fetch.
Qed.

Lemma initializeConnectorValues_deferred_never_fetches (c : Connector)
    (name : string) (suppress : bool) (w : W) :
  lookup connectors name = Some c ->
  activateAccountImmediately c = false ->
  exists evs,
    trace (snd (initializeConnectorValues WALLETCONNECT_TIMEOUT connectors
                  libraryName name suppress w))
    = (trace w ++ evs)%list
    /\ no_account_fetch evs.
Proof.
  intros L F. unfold initializeConnectorValues, try_catch. rewrite L.
  destruct (activation_deferred_never_fetches c name w F) as (evs & T & N).
  destruct (activation libraryName c name w) as [[u|e] w1]; simpl in T.
  - exists evs. now split.
  - destruct suppress; simpl.
    + exists evs. now split.
    + unfold bind.
      destruct (ErrorCode_eqb (code e) WALLETCONNECT_TIMEOUT) eqn:C.
      * apply ErrorCode_eqb_eq in C.
        rewrite (processError_timeout e (Some name) w1 C). simpl.
        exists evs. now split.
      * apply ErrorCode_eqb_neq in C.
        rewrite (processError_other e (Some name) w1 C). simpl.
        rewrite T, <- app_assoc. eexists. split; [reflexivity|].
        intros r H. apply in_app_or in H. destruct H as [H|[H|[]]].
        -- exact (N r H).
        -- discriminate.
Qed.

(** C6, as the code has it: for a connector with
    [activateAccountImmediately = false], registered under a name other than
    the snapshot's current [connectorName], [setConnector] never calls the
    account accessor, and when the activation hook, the library fetch and
    the network-id fetch succeed it commits, in one
    [UPDATE_CONNECTOR_VALUES], a snapshot whose account is exactly [null]. *)
Theorem setConnector_deferred_account_is_null :
  forall (s : State) (name : string) (c : Connector) (suppress : bool) (w : W),
    lookup connectors name = Some c ->
    connectorName s <> Some name ->
    activateAccountImmediately c = false ->
    (exists evs,
        trace (snd (setConnector WALLETCONNECT_TIMEOUT connectors libraryName
                      s name suppress w))
        = (trace w ++ evs)%list
        /\ no_account_fetch evs)
    /\ (forall (u : unit) (lib : Library) (net : Z),
          outcome (onActivation c) = Fulfilled u ->
          outcome (getLibrary c libraryName) = Fulfilled lib ->
          outcome (getNetworkId c lib) = Fulfilled net ->
          setConnector WALLETCONNECT_TIMEOUT connectors libraryName
            s name suppress w
          = (Normal tt,
             {| store := {| connectorName := Some name;
                            library := Some lib;
                            networkId := Some net;
                            account := AccountNull;
                            error := None |};
                trace := trace w
                         ++ [Called (ref c) OnActivation;
                             Called (ref c) GetLibrary;
                             Called (ref c) GetNetworkId;
                             Dispatched
                               (UPDATE_CONNECTOR_VALUES name lib net
                                  AccountNull)] |})).
Proof.
  intros s name c suppress w L N F.
  rewrite (setConnector_proceeds s name c suppress w L N). split.
  - exact (initializeConnectorValues_deferred_never_fetches
             c name suppress w L F).
  - intros u lib net O G I.
    unfold initializeConnectorValues, try_catch. rewrite L.
    rewrite activation_unfold.
    rewrite (invoke_await_fulfilled c OnActivation _ u w O).
    rewrite (invoke_await_fulfilled c GetLibrary _ lib _ G).
    unfold bind, invoke, emit, await, ret, throw, dispatchWeb3State; simpl.
    rewrite F.
    destruct (getNetworkId c lib) as [en|[tn [n|e1]]]; simpl in I;
      try discriminate.
    injection I as ->.
    unfold Promise_all, Promise_resolve; simpl.
    rewrite <- !app_assoc. reflexivity.
Qed.

(** ** What the operations can emit *)

Section Emits.

Variable P : @Event Library -> Prop.

Lemma emits_ret {A : Type} (a : A) : emits P (ret a).
Proof. intro w. exists []. simpl. now rewrite app_nil_r. Qed.

Lemma emits_throw {A : Type} (e : Error) : emits P (throw (A := A) e).
Proof. intro w. exists []. simpl. now rewrite app_nil_r. Qed.

Lemma emits_emit (ev : Event) : P ev -> emits P (emit ev).
Proof. intros H w. exists [ev]. simpl. split; [reflexivity|now constructor]. Qed.

Lemma emits_dispatch (a : Action) :
  P (Dispatched a) -> emits P (dispatchWeb3State a).
Proof. intros H w. exists [Dispatched a]. simpl. split; [reflexivity|now constructor]. Qed.

Lemma emits_bind {A B : Type} (m : M A) (k : A -> M B) :
  emits P m -> (forall a, emits P (k a)) -> emits P (bind m k).
Proof.
  intros Hm Hk w. destruct (Hm w) as (e1 & T1 & F1). unfold bind.
  destruct (m w) as [[a|e] w1]; simpl in *.
  - destruct (Hk a w1) as (e2 & T2 & F2). exists (e1 ++ e2)%list.
    rewrite T2, T1, app_assoc. split; [reflexivity|].
    apply Forall_app. now split.
  - exists e1. now split.
Qed.

Lemma emits_try_catch {A : Type} (m : M A) (h : Error -> M A) :
  emits P m -> (forall e, emits P (h e)) -> emits P (try_catch m h).
Proof.
  intros Hm Hh w. destruct (Hm w) as (e1 & T1 & F1). unfold try_catch.
  destruct (m w) as [[a|e] w1]; simpl in *.
  - exists e1. now split.
  - destruct (Hh e w1) as (e2 & T2 & F2). exists (e1 ++ e2)%list.
    rewrite T2, T1, app_assoc. split; [reflexivity|].
    apply Forall_app. now split.
Qed.

Lemma emits_await {A : Type} (p : Promise A) : emits P (await p).
Proof.
  unfold await. destruct (settlement p); [apply emits_ret|apply emits_throw].
Qed.

Lemma emits_invoke {A : Type} (c : Connector (Library := Library)
      (LibraryName := LibraryName)) (m : Method) (r : Invocation A) :
  P (Called (ref c) m) -> emits P (invoke c m r).
Proof.
  intro H. unfold invoke. apply emits_bind; [now apply emits_emit|].
  intros _. destruct r; [apply emits_throw|apply emits_ret].
Qed.

End Emits.

Ltac emits_step :=
  first
    [ apply emits_ret
    | apply emits_throw
    | apply emits_await
    | apply emits_invoke; reflexivity
    | apply emits_dispatch; reflexivity
    | apply emits_emit; reflexivity
    | apply emits_bind; [|intro]
    | apply emits_try_catch; [|intro]
    | match goal with
      | |- emits _ (if ?b then _ else _) => destruct b
      | |- emits _ (match ?x with _ => _ end) => destruct x
      end ].

Lemma processError_emits (e : Error) (name : option string) :
  emits operation_event
    (processError WALLETCONNECT_TIMEOUT e name).
Proof. unfold processError. repeat emits_step. Qed.

Lemma activation_emits (c : Connector) (name : string) :
  emits operation_event (activation libraryName c name).
Proof. unfold activation. repeat emits_step. Qed.

Lemma setConnector_emits (s : State) (name : string) (suppress : bool) :
  emits operation_event
    (setConnector WALLETCONNECT_TIMEOUT connectors libraryName s name suppress).
Proof.
  unfold setConnector, initializeConnectorValues, console_error,
    throw_if_defined.
  repeat first [apply activation_emits | apply processError_emits | emits_step].
Qed.

Lemma activateAccount_emits (s : State) (suppress : bool) :
  emits operation_event
    (activateAccount WALLETCONNECT_TIMEOUT connectors s suppress).
Proof.
  unfold activateAccount, console_error, throw_if_defined.
  repeat first [apply processError_emits | emits_step].
Qed.

Lemma perform_emits (op : Operation) (h : Hook) :
  emits operation_event
    (perform WALLETCONNECT_TIMEOUT connectors libraryName op h).
Proof.
  destruct op; simpl.
  - apply setConnector_emits.
  - unfold unsetConnector. emits_step.
  - apply activateAccount_emits.
  - unfold networkChangedListenerHandler. emits_step.
  - unfold accountsChangedListenerHandler. emits_step.
Qed.

Lemma starts_bind {A B : Type} (P : @Event Library -> Prop) (ev : Event)
    (m : M A)
    (k : A -> M B) :
  starts ev m -> (forall a, emits P (k a)) -> starts ev (bind m k).
Proof.
  intros Hm Hk w. destruct (Hm w) as (r1 & T1). unfold bind.
  destruct (m w) as [[a|e] w1]; simpl in *.
  - destruct (Hk a w1) as (e2 & T2 & _). exists (r1 ++ e2)%list.
    rewrite T2, T1, <- app_assoc. reflexivity.
  - now exists r1.
Qed.

Lemma starts_try_catch {A : Type} (P : @Event Library -> Prop) (ev : Event)
    (m : M A)
    (h : Error -> M A) :
  starts ev m -> (forall e, emits P (h e)) -> starts ev (try_catch m h).
Proof.
  intros Hm Hh w. destruct (Hm w) as (r1 & T1). unfold try_catch.
  destruct (m w) as [[a|e] w1]; simpl in *.
  - now exists r1.
  - destruct (Hh e w1) as (e2 & T2 & _). exists (r1 ++ e2)%list.
    rewrite T2, T1, <- app_assoc. reflexivity.
Qed.

Lemma starts_invoke {A : Type} (c : Connector (Library := Library)
      (LibraryName := LibraryName)) (m : Method) (r : Invocation A) :
  starts (Called (ref c) m) (invoke c m r).
Proof.
  intro w. exists []. unfold invoke, bind, emit. destruct r; reflexivity.
Qed.

(** The first thing the activation sequence does is call the activation
    hook, before anything is dispatched. *)
Lemma initializeConnectorValues_starts (c : Connector) (name : string)
    (suppress : bool) :
  lookup connectors name = Some c ->
  starts (Called (ref c) OnActivation)
    (initializeConnectorValues WALLETCONNECT_TIMEOUT connectors libraryName
       name suppress).
Proof.
  intro L. unfold initializeConnectorValues. rewrite L.
  apply starts_try_catch with (P := operation_event).
  - unfold activation.
    apply starts_bind with (P := operation_event).
    + apply starts_invoke.
    + intro p. repeat emits_step.
  - intro e. unfold throw_if_defined.
    repeat first [apply processError_emits | emits_step].
Qed.

Lemma deactivations_app (r : nat) (a b : list (@Event Library)) :
  deactivations r (a ++ b) = deactivations r a + deactivations r b.
Proof. unfold deactivations. now rewrite filter_app, length_app. Qed.

Lemma deactivations_from_operation (r : nat) (evs : list (@Event Library)) :
  Forall operation_event evs -> deactivations r evs = 0.
Proof.
  unfold deactivations. induction 1 as [|ev evs H _ IH]; [reflexivity|].
  simpl. destruct ev as [r' [] | | | |]; simpl in *; try discriminate;
    exact IH.
Qed.

Lemma subscribed_app (kind : ListenerKind) (n : nat)
    (a b : list (@Event Library)) :
  subscribed kind n (a ++ b)
  = match subscribed kind n a with
    | Some m => subscribed kind m b
    | None => None
    end.
Proof.
  revert n. induction a as [|ev a IH]; intro n; [reflexivity|].
  simpl. destruct ev; try apply IH;
    destruct (ListenerKind_eqb kind0 kind); try apply IH;
    destruct n as [|[|n]]; try reflexivity; apply IH.
Qed.

Lemma subscribed_from_operation (kind : ListenerKind) (n : nat)
    (evs : list (@Event Library)) :
  Forall operation_event evs ->
  subscribed kind n evs = Some n.
Proof.
  induction 1 as [|ev evs H _ IH]; [reflexivity|].
  destruct ev; simpl in *; try discriminate; exact IH.
Qed.

(** ** Committing a render, spelled out *)

Lemma render_spec (ethereum : bool) (h : Hook) (w : W) :
  render connectors ethereum h w
  = (Normal (render_hook connectors ethereum h (store w)),
     {| store := store w;
        trace := trace w ++ render_events connectors ethereum h (store w) |}).
Proof.
  unfold render, render_hook, render_events, connector_events,
    listener_events, when, cleanup_connector,
    cleanup_listener, listen, when, bind, emit, ret.
  destruct w as [s t]; simpl.
  destruct (activeConnector_changed connectors h s);
    destruct (deactivates h);
    destruct (listener_deps_changed connectors h s);
    destruct (networkListener h); destruct (accountListener h);
    destruct (wants connectors NetworkChanged s && ethereum);
    destruct (wants connectors AccountsChanged s && ethereum);
    simpl; rewrite <- ?app_assoc, ?app_nil_r; reflexivity.
Qed.

(** ** Invariants of a mounted hook *)

Lemma same_connector_refl (a : option (@Connector Library LibraryName)) :
  same_connector a a = true.
Proof. destruct a; simpl; [apply Nat.eqb_refl|reflexivity]. Qed.

Lemma same_connector_trans (a b c : option (@Connector Library LibraryName)) :
  same_connector a b = true -> same_connector a c = true ->
  same_connector b c = true.
Proof.
  destruct a, b, c; simpl; try discriminate; try reflexivity.
  rewrite !Nat.eqb_eq. congruence.
Qed.

Lemma consistent_mounted : consistent connectors mounted.
Proof. repeat split. Qed.

Lemma consistent_perform (op : Operation) (hw : Hook * W) :
  consistent connectors hw -> consistent connectors (step WALLETCONNECT_TIMEOUT connectors
                                 libraryName hw (Perform op)).
Proof.
  intros (C & N & A). destruct hw as [h w]; simpl in *.
  destruct (perform_emits op h w) as (evs & T & F).
  unfold consistent; simpl. rewrite T, !subscribed_app, N, A.
  rewrite !(subscribed_from_operation _ _ evs F). now repeat split.
Qed.

Lemma consistent_render (ethereum : bool) (hw : Hook * W) :
  consistent connectors hw -> consistent connectors (step WALLETCONNECT_TIMEOUT connectors
                                 libraryName hw (Render ethereum)).
Proof.
  intros (C & N & A). destruct hw as [h w]; simpl in *.
  rewrite render_spec. unfold consistent; simpl.
  rewrite !subscribed_app, N, A.
  unfold render_events, connector_events, listener_events.
  split; [|split].
  - unfold activeConnector_changed.
    destruct (same_connector (activeConnector connectors (rendered h))
                (activeConnector connectors (store w))) eqn:E; simpl.
    + exact (same_connector_trans _ _ _ E C).
    + apply same_connector_refl.
  - destruct (activeConnector_changed connectors h (store w));
      destruct (deactivates h);
      destruct (listener_deps_changed connectors h (store w));
      destruct (networkListener h); destruct (accountListener h);
      destruct (wants connectors NetworkChanged (store w) && ethereum);
      destruct (wants connectors AccountsChanged (store w) && ethereum);
      reflexivity.
  - destruct (activeConnector_changed connectors h (store w));
      destruct (deactivates h);
      destruct (listener_deps_changed connectors h (store w));
      destruct (networkListener h); destruct (accountListener h);
      destruct (wants connectors NetworkChanged (store w) && ethereum);
      destruct (wants connectors AccountsChanged (store w) && ethereum);
      reflexivity.
Qed.

Lemma consistent_run (steps : list Step) :
  consistent connectors (run WALLETCONNECT_TIMEOUT connectors libraryName steps).
Proof.
  unfold run. generalize consistent_mounted.
  generalize (mounted (Library := Library) (LibraryName := LibraryName)).
  induction steps as [|st steps IH]; intros hw H; simpl; [exact H|].
  apply IH. destruct st; [now apply consistent_perform|now apply consistent_render].
Qed.



Lemma step_render (ethereum : bool) (h : Hook) (w : W) :
  step WALLETCONNECT_TIMEOUT connectors libraryName (h, w) (Render ethereum)
  = (render_hook connectors ethereum h (store w),
     {| store := store w;
        trace := trace w ++ render_events connectors ethereum h (store w) |}).
Proof. simpl. now rewrite render_spec. Qed.

(** ** The lifecycle of the active connector *)


End Properties.

(** ** The manager run on the sample registries *)

(** The scenario of the specification: one connector, resolving network 1
    and account 0xabc. *)
Example injected_scenario :
  exists w,
    setConnector Sample.TIMEOUT [("injected", Sample.injected)] "web3.js"
      initialWeb3State "injected" true Sample.fresh
    = (Normal tt, w)
    /\ store w = Sample.injected_state
    /\ web3Initialized (store w) = true.
Proof. eexists. repeat split. Qed.

(** C1 fails as stated in two ways.  A retry under the name a failed attempt
    left in the snapshot is stopped by the already-set guard: the promise
    resolves and the stale error stays.  And for a connector registered
    under the empty name the error is committed unscoped, so
    [connectorName] is not the attempted name. *)
Lemma setConnector_failure_not_always_scoped :
  (lookup [("wc", Sample.failing Sample.rejected_error)] "wc"
   = Some (Sample.failing Sample.rejected_error)
   /\ outcome (onActivation (Sample.failing Sample.rejected_error))
      = RejectedWith Sample.rejected_error
   /\ ErrorCode_eqb (code Sample.rejected_error) Sample.TIMEOUT = false
   /\ setConnector Sample.TIMEOUT
        [("wc", Sample.failing Sample.rejected_error)] "web3.js"
        (Sample.failed_state "wc" Sample.stale_error) "wc" false
        (Sample.at_state (Sample.failed_state "wc" Sample.stale_error))
      = (Normal tt,
         {| store := Sample.failed_state "wc" Sample.stale_error;
            trace := [ConsoleError "The wc connector is already set."] |}))
  /\ (lookup [("", Sample.failing Sample.rejected_error)] ""
      = Some (Sample.failing Sample.rejected_error)
      /\ exists w,
           setConnector Sample.TIMEOUT
             [("", Sample.failing Sample.rejected_error)] "web3.js"
             initialWeb3State "" false Sample.fresh
           = (Abrupt Sample.rejected_error, w)
           /\ error (store w) = Some Sample.rejected_error
           /\ connectorName (store w) = None).
Proof.
  split.
  - repeat split.
  - split; [reflexivity|]. eexists. repeat split.
Qed.

Lemma setConnector_unsuppressed_failure_witness :
  exists w,
    setConnector Sample.TIMEOUT
      [("wc", Sample.failing Sample.rejected_error)] "web3.js"
      initialWeb3State "wc" false Sample.fresh
    = (Abrupt Sample.rejected_error, w)
    /\ error (store w) = Some Sample.rejected_error
    /\ connectorName (store w) = Some "wc"
    /\ store w
       = web3StateReducer (store Sample.fresh)
           (UPDATE_ERROR_WITH_NAME Sample.rejected_error "wc")
    /\ trace w
       = (trace Sample.fresh
          ++ [Called (ref (Sample.failing Sample.rejected_error)) OnActivation;
              Dispatched (UPDATE_ERROR_WITH_NAME Sample.rejected_error "wc")])%list.
Proof.
  apply (setConnector_unsuppressed_failure_is_committed Sample.TIMEOUT
           [("wc", Sample.failing Sample.rejected_error)] "web3.js"
           initialWeb3State "wc" (Sample.failing Sample.rejected_error)
           Sample.rejected_error Sample.fresh).
  - reflexivity.
  - discriminate.
  - discriminate.
  - reflexivity.
  - discriminate.
Defined.

Lemma setConnector_swallows_timeout_witness :
  exists w,
    setConnector Sample.TIMEOUT
      [("wc", Sample.failing Sample.timeout_error)] "web3.js"
      initialWeb3State "wc" false Sample.fresh
    = (Normal tt, w)
    /\ store w = store Sample.fresh
    /\ (error (store Sample.fresh) = None -> error (store w) = None)
    /\ exists evs,
         trace w = (trace Sample.fresh ++ evs)%list
         /\ forall a, ~ In (Dispatched a) evs.
Proof.
  apply (setConnector_swallows_timeout Sample.TIMEOUT
           [("wc", Sample.failing Sample.timeout_error)] "web3.js"
           initialWeb3State "wc" (Sample.failing Sample.timeout_error)
           Sample.timeout_error Sample.fresh).
  - reflexivity.
  - reflexivity.
  - reflexivity.
Defined.

Lemma setConnector_suppressed_failure_witness :
  exists w1,
    setConnector Sample.TIMEOUT
      [("accountless", Scenario.accountless Sample.rejected_error)] "web3.js"
      initialWeb3State "accountless" true Sample.fresh
    = (Abrupt Sample.rejected_error, w1)
    /\ store w1 = store Sample.fresh.
Proof.
  destruct (setConnector_suppressed_failure_is_atomic Sample.TIMEOUT
              [("accountless", Scenario.accountless Sample.rejected_error)]
              "web3.js" "accountless"
              (Scenario.accountless Sample.rejected_error)
              Sample.rejected_error Sample.fresh eq_refl
              (raises_account_only "web3.js"
                 (Scenario.accountless Sample.rejected_error)
                 Sample.rejected_error tt "web3"
                 (mkPromise 1 (Fulfilled 1%Z))
                 (mkPromise 1 (RejectedWith Sample.rejected_error)) 1%Z
                 eq_refl eq_refl eq_refl eq_refl eq_refl eq_refl eq_refl))
    as (w1 & _ & S & St & _).
  exists w1. split; [apply S; discriminate|exact St].
Defined.

(** C4 fails as stated: with every field present and no error, a network id
    of 0 (or an empty connector name) still gives [web3Initialized = false],
    because the flag tests truthiness, not presence. *)
Lemma web3Initialized_false_though_present :
  (connectorName Sample.network_zero_state = Some "injected"
   /\ library Sample.network_zero_state = Some "web3"
   /\ networkId Sample.network_zero_state = Some 0%Z
   /\ account Sample.network_zero_state = AccountNull
   /\ error Sample.network_zero_state = None
   /\ web3Initialized Sample.network_zero_state = false)
  /\ web3Initialized
       {| connectorName := Some "";
          library := Some "web3";
          networkId := Some 1%Z;
          account := AccountAddress "0xabc";
          error := None |}
     = false.
Proof. repeat split. Qed.

Lemma setConnector_guarded_witness :
  exists msg,
    setConnector Sample.TIMEOUT Sample.registry "web3.js"
      initialWeb3State "nope" true Sample.fresh
    = (Normal tt,
       {| store := store Sample.fresh;
          trace := trace Sample.fresh ++ [ConsoleError msg] |}).
Proof.
  apply (setConnector_guarded_is_noop Sample.TIMEOUT Sample.registry "web3.js"
           initialWeb3State "nope" true Sample.fresh).
  left. simpl. intros [H|[H|[]]]; discriminate H.
Defined.

(** C6 fails as stated when the connector is the one the snapshot already
    names: [setConnector] stops at the already-set guard, commits nothing,
    and the account stays what it was, here an address. *)
Lemma setConnector_current_connector_commits_nothing :
  lookup [("lazy", Sample.lazy)] "lazy" = Some Sample.lazy
  /\ activateAccountImmediately Sample.lazy = false
  /\ outcome (onActivation Sample.lazy) = Fulfilled tt
  /\ outcome (getLibrary Sample.lazy "web3.js") = Fulfilled "web3"
  /\ outcome (getNetworkId Sample.lazy "web3") = Fulfilled 4%Z
  /\ setConnector Sample.TIMEOUT [("lazy", Sample.lazy)] "web3.js"
       Sample.lazy_state "lazy" true (Sample.at_state Sample.lazy_state)
     = (Normal tt,
        {| store := Sample.lazy_state;
           trace := [ConsoleError "The lazy connector is already set."] |})
  /\ account Sample.lazy_state = AccountAddress "0xdef".
Proof. repeat split. Qed.

Lemma setConnector_deferred_account_witness :
  setConnector Sample.TIMEOUT [("lazy", Sample.lazy)] "web3.js"
    initialWeb3State "lazy" true Sample.fresh
  = (Normal tt,
     {| store := {| connectorName := Some "lazy";
                    library := Some "web3";
                    networkId := Some 4%Z;
                    account := AccountNull;
                    error := None |};
        trace := trace Sample.fresh
                 ++ [Called (ref Sample.lazy) OnActivation;
                     Called (ref Sample.lazy) GetLibrary;
                     Called (ref Sample.lazy) GetNetworkId;
                     Dispatched
                       (UPDATE_CONNECTOR_VALUES "lazy" "web3" 4%Z
                          AccountNull)] |}).
Proof.
  refine (proj2 (setConnector_deferred_account_is_null Sample.TIMEOUT
                   [("lazy", Sample.lazy)] "web3.js" initialWeb3State "lazy"
                   Sample.lazy true Sample.fresh _ _ _)
            tt "web3" 4%Z _ _ _).
  - reflexivity.
  - discriminate.
  - reflexivity.
  - reflexivity.
  - reflexivity.
  - reflexivity.
Defined.

Lemma activateAccount_guarded_witness :
  exists msg,
    activateAccount Sample.TIMEOUT Sample.registry
      initialWeb3State true Sample.fresh
    = (Normal tt,
       {| store := store Sample.fresh;
          trace := trace Sample.fresh ++ [ConsoleError msg] |}).
Proof.
  apply (activateAccount_guarded_is_noop Sample.TIMEOUT Sample.registry
           initialWeb3State true Sample.fresh).
  left. reflexivity.
Defined.



(** * Further properties of the manager *)

Section Outcomes.

Context {Library LibraryName : Type}.
Variable WALLETCONNECT_TIMEOUT : ErrorCode.
Variable connectors : @Connectors Library LibraryName.
Variable libraryName : LibraryName.

Abbreviation State' := (@Web3State Library).
Abbreviation W' := (@World Library).

(** A key of the registry is found by [lookup]. *)
Lemma includes_lookup (cs : @Connectors Library LibraryName) (name : string) :
  includes (Object_keys cs) name = true -> exists c, lookup cs name = Some c.
Proof.
  induction cs as [|[k c] rest IH]; unfold includes; simpl; [discriminate|].
  rewrite (String.eqb_sym name k).
  destruct (String.eqb k name); [intros _; now exists c|exact IH].
Qed.

(** A successful activation sequence ends in its one dispatch, which
    replaces the whole store. *)
Lemma activation_normal (c : Connector) (name : string) (u : unit)
    (w w1 : W') :
  activation libraryName c name w = (Normal u, w1) ->
  exists lib net acc, store w1 = committed name lib net acc.
Proof.
  rewrite activation_unfold.
  destruct (outcome (onActivation c)) as [u0|e0] eqn:O.
  2:{ rewrite (invoke_await_rejected c OnActivation _ e0 w O). discriminate. }
  rewrite (invoke_await_fulfilled c OnActivation _ u0 w O).
  destruct (outcome (getLibrary c libraryName)) as [lib|e0] eqn:L.
  2:{ rewrite (invoke_await_rejected c GetLibrary _ e0 _ L). discriminate. }
  rewrite (invoke_await_fulfilled c GetLibrary _ lib _ L).
  unfold bind, invoke, emit, await, ret, throw, dispatchWeb3State; simpl.
  destruct (getNetworkId c lib) as [en|[tn [n|e1]]]; simpl;
    try discriminate;
    destruct (activateAccountImmediately c); simpl;
    try discriminate;
    try (destruct (getAccount c lib) as [ea|[ta [a|e2]]]; simpl;
         try discriminate);
    unfold Promise_all, Promise_resolve; simpl;
    try destruct (Nat.leb tn ta); simpl; try discriminate;
    intros [= <- <-]; simpl; eexists; eexists; eexists; reflexivity.
Qed.

(** The four ways [setConnector] can end. *)
Lemma setConnector_outcomes :
  forall (s : State') (name : string) (suppress : bool) (w : W'),
    let r := setConnector WALLETCONNECT_TIMEOUT connectors libraryName
               s name suppress w in
    (fst r = Normal tt /\ store (snd r) = store w)
    \/ (fst r = Normal tt
        /\ exists lib net acc, store (snd r) = committed name lib net acc)
    \/ (exists e, fst r = Abrupt e /\ suppress = true
                  /\ store (snd r) = store w)
    \/ (exists e, fst r = Abrupt e /\ suppress = false
                  /\ code e <> WALLETCONNECT_TIMEOUT
                  /\ store (snd r)
                     = web3StateReducer (store w) (error_action e (Some name))).
Proof.
  intros s name suppress w r. subst r. unfold setConnector.
  destruct (includes (Object_keys connectors) name) eqn:I; simpl;
    [|left; now split].
  destruct (is_current s name); [left; now split|].
  destruct (includes_lookup _ _ I) as (c & L).
  unfold initializeConnectorValues, try_catch. rewrite L.
  destruct (activation libraryName c name w) as [[u|e] w1] eqn:A.
  - right; left. destruct u. split; [reflexivity|].
    exact (activation_normal c name tt w w1 A).
  - destruct (activation_abrupt libraryName c name e w w1 A) as (S & _).
    destruct suppress; simpl.
    + right; right; left. exists e. now repeat split.
    + unfold bind.
      destruct (ErrorCode_eqb (code e) WALLETCONNECT_TIMEOUT) eqn:C.
      * apply ErrorCode_eqb_eq in C.
        rewrite (processError_timeout _ e (Some name) w1 C). simpl.
        left. now split.
      * apply ErrorCode_eqb_neq in C.
        rewrite (processError_other _ e (Some name) w1 C). simpl.
        right; right; right. exists e. rewrite S. now repeat split.
Qed.

(** X1: [setConnector] has four outcomes and no other.  It resolves with
    the store untouched (a guard, or a swallowed timeout); it resolves
    having replaced the whole store by one snapshot that names the
    connector and has [error] null; it rejects with the store untouched
    (suppressed); or it rejects having committed only the error
    (unsuppressed).  So [library], [networkId] and [account] never change
    except all together, in a commit that also clears the error. *)
Theorem setConnector_all_or_nothing :
  forall (s : State') (name : string) (suppress : bool) (w : W'),
    let r := setConnector WALLETCONNECT_TIMEOUT connectors libraryName
               s name suppress w in
    (fst r = Normal tt /\ store (snd r) = store w)
    \/ (fst r = Normal tt
        /\ exists lib net acc, store (snd r) = committed name lib net acc)
    \/ (exists e, fst r = Abrupt e /\ suppress = true
                  /\ store (snd r) = store w)
    \/ (exists e, fst r = Abrupt e /\ suppress = false
                  /\ code e <> WALLETCONNECT_TIMEOUT
                  /\ store (snd r)
                     = web3StateReducer (store w) (error_action e (Some name))).
Proof. exact setConnector_outcomes. Qed.

(** X2: a connector with [activateAccountImmediately = true], registered
    under a name other than the snapshot's current one, all four of whose
    calls succeed, is activated by calling each method once, in the order
    activation hook, library, network id, account, and then committing one
    snapshot with these values and [error] null, whatever the store held
    (an earlier error included).  The manager is initialized on that
    snapshot exactly when the name is not empty, the network id is not 0
    and the account is not [undefined]. *)
Theorem setConnector_success_commits_snapshot :
  forall (s : State') (name : string) (c : Connector) (suppress : bool)
         (u : unit) (lib : Library) (net : Z) (acc : Account) (w : W'),
    lookup connectors name = Some c ->
    connectorName s <> Some name ->
    activateAccountImmediately c = true ->
    outcome (onActivation c) = Fulfilled u ->
    outcome (getLibrary c libraryName) = Fulfilled lib ->
    outcome (getNetworkId c lib) = Fulfilled net ->
    outcome (getAccount c lib) = Fulfilled acc ->
    setConnector WALLETCONNECT_TIMEOUT connectors libraryName s name suppress w
    = (Normal tt,
       {| store := committed name lib net acc;
          trace := trace w
                   ++ [Called (ref c) OnActivation;
                       Called (ref c) GetLibrary;
                       Called (ref c) GetNetworkId;
                       Called (ref c) GetAccount;
                       Dispatched (UPDATE_CONNECTOR_VALUES name lib net acc)] |})
    /\ web3Initialized (committed name lib net acc)
       = negb (String.eqb name "") && negb (Z.eqb net 0)
         && negb (Account_is_undefined acc).
Proof.
  intros s name c suppress u lib net acc w L N F O G I A. split.
  - rewrite (setConnector_proceeds _ _ _ s name c suppress w L N).
    unfold initializeConnectorValues, try_catch. rewrite L.
    rewrite activation_unfold.
    rewrite (invoke_await_fulfilled c OnActivation _ u w O).
    rewrite (invoke_await_fulfilled c GetLibrary _ lib _ G).
    unfold bind, invoke, emit, await, ret, throw, dispatchWeb3State; simpl.
    rewrite F.
    destruct (getNetworkId c lib) as [en|[tn [n|e1]]]; simpl in I;
      try discriminate.
    injection I as ->. simpl.
    destruct (getAccount c lib) as [ea|[ta [a|e2]]]; simpl in A;
      try discriminate.
    injection A as ->.
    unfold Promise_all; simpl. rewrite <- !app_assoc. reflexivity.
  - unfold web3Initialized, committed; simpl.
    now rewrite !andb_true_r.
Qed.

(** X3: with [suppressGlobalError = false], an error raised at any step of
    the activation sequence (hook, library, network id or account) is
    handled by its code.  The timeout code makes the call resolve with the
    store untouched, although the connector's methods were called.  Any
    other error is committed (scoped to the name unless the name is empty)
    and rethrown; the commit keeps the store's [library], [networkId] and
    [account], so after a failed switch the snapshot names the new
    connector beside the old connector's values, and the manager is not
    initialized. *)
Theorem setConnector_unsuppressed_policy :
  forall (s : State') (name : string) (c : Connector) (e : Error) (w : W'),
    lookup connectors name = Some c ->
    connectorName s <> Some name ->
    raises libraryName c e ->
    (code e = WALLETCONNECT_TIMEOUT ->
       exists w1,
         setConnector WALLETCONNECT_TIMEOUT connectors libraryName
           s name false w
         = (Normal tt, w1)
         /\ store w1 = store w)
    /\ (code e <> WALLETCONNECT_TIMEOUT ->
          exists w2,
            setConnector WALLETCONNECT_TIMEOUT connectors libraryName
              s name false w
            = (Abrupt e, w2)
            /\ error (store w2) = Some e
            /\ connectorName (store w2)
               = (if String.eqb name "" then connectorName (store w)
                  else Some name)
            /\ library (store w2) = library (store w)
            /\ networkId (store w2) = networkId (store w)
            /\ account (store w2) = account (store w)
            /\ web3Initialized (store w2) = false).
Proof.
  intros s name c e w L N R.
  destruct (raises_activation libraryName c name e w R) as (w1 & A).
  rewrite (setConnector_proceeds _ _ _ s name c false w L N).
  unfold initializeConnectorValues, try_catch. rewrite L, A.
  destruct (activation_abrupt libraryName c name e w w1 A) as (S & _).
  unfold bind. split; intro C.
  - rewrite (processError_timeout _ e (Some name) w1 C). exists w1. now split.
  - rewrite (processError_other _ e (Some name) w1 C).
    eexists. split; [reflexivity|]. simpl. rewrite S.
    unfold error_action, web3Initialized.
    destruct (String.eqb name ""); simpl; repeat split;
      now rewrite andb_false_r.
Qed.

(** X4: on an initialized snapshot whose account is [null], with an active
    connector, [activateAccount] calls the connector's account accessor
    once with the snapshot's library and, when it resolves, dispatches
    [UPDATE_ACCOUNT] with the value and resolves: only the store's account
    changes.  The value is committed as is: if the accessor resolves
    [undefined], a store equal to the snapshot stops being initialized. *)
Theorem activateAccount_fetches_and_commits :
  forall (s : State') (c : Connector) (lib : Library) (suppress : bool)
         (acc : Account) (w : W'),
    web3Initialized s = true ->
    account s = AccountNull ->
    activeConnector connectors s = Some c ->
    library s = Some lib ->
    outcome (getAccount c lib) = Fulfilled acc ->
    activateAccount WALLETCONNECT_TIMEOUT connectors s suppress w
    = (Normal tt,
       {| store := {| connectorName := connectorName (store w);
                      library := library (store w);
                      networkId := networkId (store w);
                      account := acc;
                      error := error (store w) |};
          trace := trace w ++ [Called (ref c) GetAccount;
                               Dispatched (UPDATE_ACCOUNT acc)] |})
    /\ (store w = s ->
        web3Initialized
          (web3StateReducer (store w) (UPDATE_ACCOUNT acc))
        = negb (Account_is_undefined acc)).
Proof.
  intros s c lib suppress acc w I A C L O. split.
  - rewrite (activateAccount_catch_is_unsuppressed _ _ s c lib suppress I A C L).
    unfold bind, try_catch, invoke, emit, await, ret, throw,
      dispatchWeb3State; simpl.
    destruct (getAccount c lib) as [ea|[ta [a|e2]]]; simpl in O;
      try discriminate.
    injection O as ->. simpl. rewrite <- app_assoc. reflexivity.
  - intros ->. unfold web3Initialized in *; simpl.
    apply andb_true_iff in I. destruct I as (I & E).
    apply andb_true_iff in I. destruct I as (I & _).
    now rewrite I, E, andb_true_r.
Qed.

(** X5: how [activateAccount] fails, past its guards.  A rejection of the
    account accessor is rethrown with the store untouched when suppressed;
    unsuppressed it is swallowed on the timeout code, and otherwise
    committed with [UPDATE_ERROR], which leaves [connectorName] alone, and
    rethrown.  A synchronous throw of the accessor is outside the promise
    chain: it rejects the call without reaching [processError], so nothing
    is committed even when [suppressGlobalError] is false. *)
Theorem activateAccount_failure_policy :
  forall (s : State') (c : Connector) (lib : Library) (e : Error) (w : W'),
    web3Initialized s = true ->
    account s = AccountNull ->
    activeConnector connectors s = Some c ->
    library s = Some lib ->
    let called := {| store := store w;
                     trace := trace w ++ [Called (ref c) GetAccount] |} in
    (getAccount c lib = Threw e ->
       forall suppress,
         activateAccount WALLETCONNECT_TIMEOUT connectors s suppress w
         = (Abrupt e, called))
    /\ (forall p,
          getAccount c lib = Returned p ->
          settlement p = RejectedWith e ->
          activateAccount WALLETCONNECT_TIMEOUT connectors s true w
          = (Abrupt e, called)
          /\ (code e = WALLETCONNECT_TIMEOUT ->
              activateAccount WALLETCONNECT_TIMEOUT connectors s false w
              = (Normal tt, called))
          /\ (code e <> WALLETCONNECT_TIMEOUT ->
              activateAccount WALLETCONNECT_TIMEOUT connectors s false w
              = (Abrupt e,
                 {| store := {| connectorName := connectorName (store w);
                                library := library (store w);
                                networkId := networkId (store w);
                                account := account (store w);
                                error := Some e |};
                    trace := trace w ++ [Called (ref c) GetAccount;
                                         Dispatched (UPDATE_ERROR e)] |}))).
Proof.
  intros s c lib e w I A C L called. subst called. split.
  - intros T suppress.
    rewrite (activateAccount_catch_is_unsuppressed _ _ s c lib suppress I A C L).
    unfold bind, invoke, emit. rewrite T. reflexivity.
  - intros p R S.
    rewrite !(activateAccount_catch_is_unsuppressed _ _ s c lib _ I A C L).
    unfold bind at 1 3 5. unfold invoke, emit, bind at 1 3 5. rewrite R.
    unfold ret, try_catch, bind, await. rewrite S. simpl.
    split; [reflexivity|]. split; intro Cd.
    + unfold unsuppressed, bind.
      now rewrite (processError_timeout _ e None _ Cd).
    + unfold unsuppressed, bind.
      rewrite (processError_other _ e None _ Cd). simpl.
      now rewrite <- app_assoc.
Qed.

(** X6: how the reducer's actions compose.  [UPDATE_NETWORK_ID] and
    [UPDATE_ACCOUNT] touch independent fields, so they commute, and of two
    updates of the same field the last one wins; neither touches
    [connectorName], [library] or [error].  [UPDATE_CONNECTOR_VALUES] and
    [RESET] forget the previous state altogether. *)
Theorem reducer_actions_compose :
  forall (s s' : State') (net net' : Z) (acc acc' : Account)
         (name : string) (lib : Library),
    web3StateReducer (web3StateReducer s (UPDATE_NETWORK_ID net))
      (UPDATE_ACCOUNT acc)
    = web3StateReducer (web3StateReducer s (UPDATE_ACCOUNT acc))
        (UPDATE_NETWORK_ID net)
    /\ web3StateReducer (web3StateReducer s (UPDATE_NETWORK_ID net))
         (UPDATE_NETWORK_ID net')
       = web3StateReducer s (UPDATE_NETWORK_ID net')
    /\ web3StateReducer (web3StateReducer s (UPDATE_ACCOUNT acc))
         (UPDATE_ACCOUNT acc')
       = web3StateReducer s (UPDATE_ACCOUNT acc')
    /\ (let t := web3StateReducer (web3StateReducer s (UPDATE_NETWORK_ID net))
                   (UPDATE_ACCOUNT acc) in
        connectorName t = connectorName s /\ library t = library s
        /\ error t = error s)
    /\ web3StateReducer s (UPDATE_CONNECTOR_VALUES name lib net acc)
       = web3StateReducer s' (UPDATE_CONNECTOR_VALUES name lib net acc)
    /\ web3StateReducer s RESET = web3StateReducer s' RESET.
Proof. intros. repeat split. Qed.

(** What [activateAccount] can leave in the store. *)
Lemma activateAccount_outcomes (s : State') (suppress : bool) (w : W') :
  let w1 := snd (activateAccount WALLETCONNECT_TIMEOUT connectors s suppress w) in
  store w1 = store w
  \/ (exists acc, store w1 = web3StateReducer (store w) (UPDATE_ACCOUNT acc))
  \/ (exists e, store w1 = web3StateReducer (store w) (UPDATE_ERROR e)).
Proof.
  unfold activateAccount.
  destruct (web3Initialized s); simpl; [|now left].
  destruct (Account_is_null (account s)); simpl; [|now left].
  destruct (activeConnector connectors s) as [c|]; [|now left].
  destruct (library s) as [lib|]; [|now left].
  unfold bind, try_catch, invoke, emit, await, ret, throw, dispatchWeb3State.
  destruct (getAccount c lib) as [ea|[ta [a|e]]]; simpl.
  - now left.
  - right; left. now exists a.
  - destruct suppress; simpl; [now left|].
    unfold processError.
    destruct (ErrorCode_eqb (code e) WALLETCONNECT_TIMEOUT); simpl;
      [now left|right; right; now exists e].
Qed.

(** X7: an error stays.  Of the reducer's actions only
    [UPDATE_CONNECTOR_VALUES] and [RESET] clear it, so once the store holds
    an error, the only operations after which it holds none are
    [unsetConnector] and a [setConnector] that succeeds, which leaves its
    own name in the store; [activateAccount] and the two listener handlers
    keep an error or replace it by another. *)
Theorem error_is_cleared_only_by_set_or_unset :
  forall (op : Operation) (h : Hook) (w : W') (e : Error),
    error (store w) = Some e ->
    error (store (snd (perform WALLETCONNECT_TIMEOUT connectors libraryName
                         op h w))) = None ->
    op = UnsetConnector
    \/ exists name suppress,
         op = SetConnector name suppress
         /\ connectorName
              (store (snd (perform WALLETCONNECT_TIMEOUT connectors
                             libraryName op h w)))
            = Some name.
Proof.
  intros op h w e E N. destruct op as [name sup| |sup|net|accounts];
    simpl in *.
  - right. exists name, sup. split; [reflexivity|].
    destruct (setConnector_outcomes (rendered h) name sup w)
      as [(_ & S)|[(_ & lib & net & acc & S)|[(e' & _ & _ & S)|(e' & _ & _ & _ & S)]]];
      rewrite S in *; simpl in *.
    + congruence.
    + reflexivity.
    + congruence.
    + unfold error_action in N. destruct (String.eqb name ""); discriminate.
  - now left.
  - exfalso.
    destruct (activateAccount_outcomes (rendered h) sup w)
      as [S|[(acc & S)|(e' & S)]]; rewrite S in N; simpl in N; congruence.
  - exfalso. congruence.
  - exfalso. congruence.
Qed.

(** X8: no operation of the manager ever calls [onDeactivation] or adds or
    removes a listener on [window.ethereum]: [setConnector],
    [unsetConnector], [activateAccount] and the two handlers only log,
    dispatch and call the four activation methods.  Deactivation and
    subscription happen at commits alone. *)
Theorem operations_leave_cleanup_to_commits :
  forall (op : Operation) (h : Hook) (w : W'),
    exists evs,
      trace (snd (perform WALLETCONNECT_TIMEOUT connectors libraryName op h w))
      = (trace w ++ evs)%list
      /\ forall ev,
           In ev evs ->
           (forall r, ev <> Called r OnDeactivation)
           /\ (forall kind, ev <> EthereumOn kind)
           /\ (forall kind, ev <> EthereumRemoveListener kind).
Proof.
  intros op h w.
  destruct (perform_emits WALLETCONNECT_TIMEOUT connectors libraryName op h w)
    as (evs & T & F).
  exists evs. split; [exact T|].
  intros ev I. rewrite Forall_forall in F. specialize (F ev I).
  repeat split; intros x ->; discriminate.
Qed.

End Outcomes.

Section Commits.

Context {Library LibraryName : Type}.
Variable WALLETCONNECT_TIMEOUT : ErrorCode.
Variable connectors : @Connectors Library LibraryName.
Variable libraryName : LibraryName.

Abbreviation Hook' := (@Hook Library LibraryName).
Abbreviation World' := (@World Library).
Abbreviation step' := (step WALLETCONNECT_TIMEOUT connectors libraryName).
Abbreviation run' := (run WALLETCONNECT_TIMEOUT connectors libraryName).

Lemma same_name_eq (a b : option string) : same_name a b = true -> a = b.
Proof.
  destruct a, b; simpl; try discriminate; try reflexivity.
  intro H. apply String.eqb_eq in H. now subst.
Qed.

Lemma same_name_refl (a : option string) : same_name a a = true.
Proof. destruct a; simpl; [apply String.eqb_refl|reflexivity]. Qed.

Lemma deps_unchanged_wants (h : Hook') (s : Web3State) (kind : ListenerKind) :
  listener_deps_changed connectors h s = false ->
  wants connectors kind s = wants connectors kind (rendered h).
Proof.
  unfold listener_deps_changed. rewrite negb_false_iff, !andb_true_iff.
  intros ((I & _) & N). apply same_name_eq in N. apply Bool.eqb_prop in I.
  unfold wants, activeConnector. now rewrite I, N.
Qed.

Lemma wanted_step (hw : Hook' * World') (st : Step) :
  listening_is_wanted connectors (fst hw)
  -> listening_is_wanted connectors (fst (step' hw st)).
Proof.
  destruct hw as [h w]. intros (N & A). destruct st as [op|ethereum].
  - now split.
  - rewrite step_render. unfold listening_is_wanted, render_hook; simpl.
    destruct (listener_deps_changed connectors h (store w)) eqn:D.
    + split; intro H; apply andb_true_iff in H; tauto.
    + rewrite !(deps_unchanged_wants h (store w) _ D). now split.
Qed.

Lemma wanted_run (steps : list Step) :
  listening_is_wanted connectors (fst (run' steps)).
Proof.
  unfold run.
  assert (H : listening_is_wanted connectors
                (fst (mounted (Library := Library) (LibraryName := LibraryName))))
    by (split; discriminate).
  revert H.
  generalize (mounted (Library := Library) (LibraryName := LibraryName)).
  induction steps as [|st steps IH]; intros hw H; simpl; [exact H|].
  apply IH. now apply wanted_step.
Qed.

Lemma run_app (steps more : list Step) :
  run' (steps ++ more) = fold_left step' more (run' steps).
Proof. unfold run. apply fold_left_app. Qed.

(** X9: at any time, whatever operations and commits came before, a change
    listener of the manager is installed on [window.ethereum] only if the
    last committed state is initialized and its active connector declares
    the matching [listenFor...] flag. *)
Theorem listeners_only_while_initialized :
  forall (steps : list Step) (kind : ListenerKind),
    let hw := run' steps in
    subscribed kind 0 (trace (snd hw)) = Some 1 ->
    web3Initialized (rendered (fst hw)) = true
    /\ exists c, activeConnector connectors (rendered (fst hw)) = Some c
                 /\ listens kind c = true.
Proof.
  intros steps kind hw S.
  destruct (consistent_run WALLETCONNECT_TIMEOUT connectors libraryName steps)
    as (_ & N & A).
  destruct (wanted_run steps) as (WN & WA).
  fold hw in N, A, WN, WA.
  assert (Wt : wants connectors kind (rendered (fst hw)) = true).
  { destruct kind.
    - rewrite N in S. apply WN.
      destruct (networkListener (fst hw)); [reflexivity|discriminate].
    - rewrite A in S. apply WA.
      destruct (accountListener (fst hw)); [reflexivity|discriminate]. }
  unfold wants in Wt. apply andb_true_iff in Wt. destruct Wt as (I & L).
  split; [exact I|].
  destruct (activeConnector connectors (rendered (fst hw))) as [c|];
    [|discriminate].
  now exists c.
Qed.

(** A commit of the state that is already rendered changes nothing. *)
Lemma render_in_sync (ethereum : bool) (h : Hook') (w : World') :
  store w = rendered h -> step' (h, w) (Render ethereum) = (h, w).
Proof.
  intro S. rewrite step_render. rewrite S.
  unfold render_hook, render_events, connector_events, listener_events,
    activeConnector_changed, listener_deps_changed.
  rewrite same_connector_refl, same_name_refl, Bool.eqb_reflx. simpl.
  rewrite app_nil_r. destruct h, w; simpl in *. now subst.
Qed.

(** X10: committing is idempotent.  A second commit with no dispatch in
    between runs no cleanup and no effect, whatever [window.ethereum] has
    become: listeners are subscribed once per change of the dependencies,
    not once per render. *)
Theorem commit_is_idempotent :
  forall (hw : Hook' * World') (ethereum ethereum' : bool),
    step WALLETCONNECT_TIMEOUT connectors libraryName
      (step WALLETCONNECT_TIMEOUT connectors libraryName hw (Render ethereum))
      (Render ethereum')
    = step WALLETCONNECT_TIMEOUT connectors libraryName hw (Render ethereum).
Proof.
  intros [h w] ethereum ethereum'. rewrite step_render.
  now apply render_in_sync.
Qed.

(** X11: disconnecting resets everything.  After [unsetConnector] and the
    commit that follows, in any history, the store and the rendered state
    are the initial snapshot, no connector cleanup is pending and neither
    change listener is installed. *)
Theorem unsetConnector_resets_the_hook :
  forall (steps : list Step) (ethereum : bool),
    let hw := run' (steps ++ [Perform UnsetConnector; Render ethereum]) in
    store (snd hw) = initialWeb3State
    /\ rendered (fst hw) = initialWeb3State
    /\ deactivates (fst hw) = None
    /\ networkListener (fst hw) = false
    /\ accountListener (fst hw) = false
    /\ forall kind, subscribed kind 0 (trace (snd hw)) = Some 0.
Proof.
  intros steps ethereum hw.
  pose proof (consistent_run WALLETCONNECT_TIMEOUT connectors libraryName
                (steps ++ [Perform UnsetConnector; Render ethereum])) as C.
  pose proof (wanted_run (steps ++ [Perform UnsetConnector; Render ethereum]))
    as Wt.
  fold hw in C, Wt. destruct C as (C & N & A). destruct Wt as (WN & WA).
  assert (R : rendered (fst hw) = initialWeb3State
              /\ store (snd hw) = initialWeb3State).
  { subst hw. rewrite run_app. simpl.
    destruct (run' steps) as [h w]. simpl. now rewrite render_spec. }
  destruct R as (R & S). rewrite R in C, WN, WA.
  assert (FN : networkListener (fst hw) = false).
  { destruct (networkListener (fst hw)); [|reflexivity].
    specialize (WN eq_refl). discriminate. }
  assert (FA : accountListener (fst hw) = false).
  { destruct (accountListener (fst hw)); [|reflexivity].
    specialize (WA eq_refl). discriminate. }
  repeat split; try assumption.
  - simpl in C. destruct (deactivates (fst hw)); [discriminate|reflexivity].
  - intros [|]; [now rewrite N, FN|now rewrite A, FA].
Qed.

(** Facts about one initialized snapshot. *)
Lemma initialized_parts (s : @Web3State Library) :
  web3Initialized s = true ->
  truthy_string (connectorName s) = true
  /\ is_some (library s) = true
  /\ truthy_number (networkId s) = true
  /\ Account_is_undefined (account s) = false
  /\ is_some (error s) = false.
Proof.
  unfold web3Initialized. rewrite !andb_true_iff, !negb_true_iff. tauto.
Qed.

(** X12: what a change event does to a hook whose rendered state is
    initialized and is the store's.  A network id other than 0, or a
    non-empty account list, only updates its field: the following commit
    runs no cleanup and no effect.  The network id 0, or an empty account
    list, makes the state uninitialized: the following commit removes the
    installed listeners and installs none, yet it does not deactivate the
    connector, whose cleanup stays pending. *)
Theorem change_events_keep_or_drop_listeners :
  forall (h : Hook') (w : World') (ethereum : bool),
    store w = rendered h ->
    web3Initialized (rendered h) = true ->
    let after op := step' (step' (h, w) (Perform op)) (Render ethereum) in
    let kept a := {| rendered := web3StateReducer (store w) a;
                     deactivates := deactivates h;
                     networkListener := networkListener h;
                     accountListener := accountListener h |} in
    let dropped a := {| rendered := web3StateReducer (store w) a;
                        deactivates := deactivates h;
                        networkListener := false;
                        accountListener := false |} in
    (forall net,
        net <> 0%Z ->
        after (NetworkChangedEvent net)
        = (kept (UPDATE_NETWORK_ID net),
           {| store := web3StateReducer (store w) (UPDATE_NETWORK_ID net);
              trace := trace w ++ [Dispatched (UPDATE_NETWORK_ID net)] |}))
    /\ (forall a rest,
          after (AccountsChangedEvent (a :: rest))
          = (kept (UPDATE_ACCOUNT (AccountAddress a)),
             {| store := web3StateReducer (store w)
                           (UPDATE_ACCOUNT (AccountAddress a));
                trace := trace w
                         ++ [Dispatched (UPDATE_ACCOUNT (AccountAddress a))] |}))
    /\ after (NetworkChangedEvent 0)
       = (dropped (UPDATE_NETWORK_ID 0),
          {| store := web3StateReducer (store w) (UPDATE_NETWORK_ID 0);
             trace := (trace w ++ [Dispatched (UPDATE_NETWORK_ID 0)])
                      ++ removals h |})
    /\ after (AccountsChangedEvent [])
       = (dropped (UPDATE_ACCOUNT AccountUndefined),
          {| store := web3StateReducer (store w)
                        (UPDATE_ACCOUNT AccountUndefined);
             trace := (trace w ++ [Dispatched (UPDATE_ACCOUNT AccountUndefined)])
                      ++ removals h |}).
Proof.
  intros h w ethereum S I after kept dropped. subst after kept dropped.
  destruct (initialized_parts _ I) as (Tn & Tl & Tk & Ta & Te).
  assert (R : forall a : Action,
             connectorName (web3StateReducer (rendered h) a)
             = connectorName (rendered h) ->
             library (web3StateReducer (rendered h) a) = library (rendered h) ->
             error (web3StateReducer (rendered h) a) = error (rendered h) ->
             forall w1 : World',
               store w1 = web3StateReducer (rendered h) a ->
               step' (h, w1) (Render ethereum)
               = (if truthy_number (networkId (store w1))
                     && negb (Account_is_undefined (account (store w1)))
                  then ({| rendered := store w1;
                           deactivates := deactivates h;
                           networkListener := networkListener h;
                           accountListener := accountListener h |},
                        w1)
                  else ({| rendered := store w1;
                           deactivates := deactivates h;
                           networkListener := false;
                           accountListener := false |},
                        {| store := store w1;
                           trace := trace w1 ++ removals h |}))).
  { intros a Hn Hl He w1 Hs. rewrite step_render.
    unfold render_hook, render_events, connector_events, listener_events,
      removals, activeConnector_changed, listener_deps_changed, wants,
      web3Initialized, activeConnector.
    rewrite Hs, Hn, Hl, He, same_connector_refl, same_name_refl, Tn, Tl, Tk,
      Ta, Te.
    destruct (truthy_number (networkId (web3StateReducer (rendered h) a)));
      destruct (Account_is_undefined
                  (account (web3StateReducer (rendered h) a)));
      simpl; rewrite ?app_nil_r;
      try (destruct w1; simpl in *; subst; reflexivity);
      destruct (networkListener h), (accountListener h); reflexivity. }
  assert (D : forall (op : Operation) (a : Action),
             perform WALLETCONNECT_TIMEOUT connectors libraryName op h
             = dispatchWeb3State a ->
             step' (h, w) (Perform op)
             = (h, {| store := web3StateReducer (rendered h) a;
                      trace := trace w ++ [Dispatched a] |})).
  { intros op a E. simpl. rewrite E. unfold dispatchWeb3State. simpl.
    now rewrite S. }
  rewrite S. repeat split.
  - intros net Hn. apply Z.eqb_neq in Hn.
    rewrite (D (NetworkChangedEvent net) (UPDATE_NETWORK_ID net) eq_refl).
    rewrite (R (UPDATE_NETWORK_ID net)); try reflexivity.
    simpl. now rewrite Hn, Ta.
  - intros a rest.
    rewrite (D (AccountsChangedEvent (a :: rest))
               (UPDATE_ACCOUNT (AccountAddress a)) eq_refl).
    rewrite (R (UPDATE_ACCOUNT (AccountAddress a))); try reflexivity.
    simpl. now rewrite Tk.
  - rewrite (D (NetworkChangedEvent 0) (UPDATE_NETWORK_ID 0) eq_refl).
    rewrite (R (UPDATE_NETWORK_ID 0)); reflexivity.
  - rewrite (D (AccountsChangedEvent []) (UPDATE_ACCOUNT AccountUndefined)
               eq_refl).
    rewrite (R (UPDATE_ACCOUNT AccountUndefined)); try reflexivity.
    simpl. now rewrite Tk.
Qed.

(** X13: a switch that fails unsuppressed still replaces the active
    connector.  With connector [a] active, [setConnector (name, false)] for
    another connector [b], registered under a non-empty name, whose
    activation hook rejects with an error other than the timeout, commits
    the error under [b]'s name; the following commit then deactivates [a]
    and takes [b], whose activation failed, as the connector to deactivate
    next.  The manager is left uninitialized with no listener installed. *)
Theorem failed_switch_replaces_the_active_connector :
  forall (steps : list Step) (ethereum : bool) (name : string)
         (a b : Connector) (e : Error),
    let hw := run' steps in
    deactivates (fst hw) = Some a ->
    lookup connectors name = Some b ->
    name <> "" ->
    connectorName (rendered (fst hw)) <> Some name ->
    ref b <> ref a ->
    outcome (onActivation b) = RejectedWith e ->
    code e <> WALLETCONNECT_TIMEOUT ->
    let hw' := run' (steps ++ [Perform (SetConnector name false);
                               Render ethereum]) in
    deactivates (fst hw') = Some b
    /\ web3Initialized (rendered (fst hw')) = false
    /\ networkListener (fst hw') = false
    /\ accountListener (fst hw') = false
    /\ exists post,
         trace (snd hw')
         = (trace (snd hw)
            ++ Called (ref b) OnActivation
               :: Dispatched (UPDATE_ERROR_WITH_NAME e name)
               :: Called (ref a) OnDeactivation :: post)%list
         /\ forall r, deactivations r post = 0.
Proof.
  intros steps ethereum name a b e hw D L NE N R O C hw'.
  destruct (consistent_run WALLETCONNECT_TIMEOUT connectors libraryName steps)
    as (Cs & _).
  fold hw in Cs. subst hw'. rewrite run_app. fold hw.
  destruct hw as [h w]. simpl in D, N, Cs |- *.
  rewrite (setConnector_proceeds _ _ _ (rendered h) name b false w L N).
  unfold initializeConnectorValues, try_catch. rewrite L.
  rewrite (activation_hook_rejected libraryName b name e w O).
  unfold bind. rewrite (processError_other _ e (Some name) _ C).
  unfold error_action. apply String.eqb_neq in NE. rewrite NE.
  cbn [snd]. rewrite render_spec. cbn [store trace fst snd web3StateReducer].
  assert (A : activeConnector connectors
                {| connectorName := Some name;
                   library := library (store w);
                   networkId := networkId (store w);
                   account := account (store w);
                   error := Some e |} = Some b).
  { unfold activeConnector; simpl. now rewrite NE. }
  assert (Ch : same_connector (activeConnector connectors (rendered h))
                 (Some b) = false).
  { rewrite D in Cs.
    destruct (activeConnector connectors (rendered h)) as [x|];
      [|reflexivity].
    simpl in *. apply Nat.eqb_eq in Cs. apply Nat.eqb_neq. congruence. }
  unfold render_hook, render_events, connector_events, listener_events,
    activeConnector_changed, listener_deps_changed, wants, web3Initialized.
  rewrite A, Ch, D. simpl. rewrite !andb_false_r. simpl.
  repeat split.
  eexists. split.
  - rewrite <- !app_assoc. simpl. reflexivity.
  - intro r. unfold deactivations.
    destruct (networkListener h), (accountListener h); reflexivity.
Qed.

(** X14: a switch that fails suppressed changes nothing in the hook,
    although the new connector's activation hook has run.  When the
    rendered state is the store's, the commit following the failed call
    runs no cleanup and no effect: the previous connector stays the active
    one, and the connector whose activation was attempted is pending no
    [onDeactivation]. *)
Theorem suppressed_failed_switch_changes_nothing :
  forall (h : Hook') (w w1 : World') (ethereum : bool) (name : string)
         (b : Connector) (e : Error),
    store w = rendered h ->
    lookup connectors name = Some b ->
    connectorName (rendered h) <> Some name ->
    activation libraryName b name w = (Abrupt e, w1) ->
    step' (step' (h, w) (Perform (SetConnector name true))) (Render ethereum)
    = (h, w1)
    /\ store w1 = store w
    /\ exists rest,
         trace w1 = (trace w ++ Called (ref b) OnActivation :: rest)%list
         /\ forall r, deactivations r rest = 0.
Proof.
  intros h w w1 ethereum name b e S L N A.
  destruct (activation_abrupt libraryName b name e w w1 A) as (St & _).
  assert (I : setConnector WALLETCONNECT_TIMEOUT connectors libraryName
                (rendered h) name true w = (Abrupt e, w1)).
  { rewrite (setConnector_proceeds _ _ _ (rendered h) name b true w L N).
    unfold initializeConnectorValues, try_catch. now rewrite L, A. }
  split; [|split; [exact St|]].
  - cbn [step fst snd perform]. rewrite I. cbn [snd].
    apply render_in_sync. congruence.
  - destruct (setConnector_emits WALLETCONNECT_TIMEOUT connectors libraryName
                (rendered h) name true w) as (evs & T & F).
    destruct (initializeConnectorValues_starts WALLETCONNECT_TIMEOUT
                connectors libraryName b name true L w) as (rest & Sr).
    rewrite <- (setConnector_proceeds _ _ _ (rendered h) name b true w L N)
      in Sr.
    rewrite I in T, Sr. simpl in T, Sr. rewrite Sr in T.
    apply app_inv_head in T. subst evs.
    exists rest. split; [exact Sr|].
    intro r. apply deactivations_from_operation. now inversion F.
Qed.

End Commits.


(** * Properties of the injected connector *)

Section InjectedFacts.

Import Injected.

Variable DEV : bool.
Variable coerced_positive : Json -> bool.

Lemma request_then_wait {A B : Type} (c : Call) (r : Invocation A)
    (f : A -> Completion B) (t : list Call) :
  (p <~ request c r ;; wait (then_ p f)) t
  = (match answered r f with
     | Fulfilled b => Normal b
     | RejectedWith e => Abrupt e
     end, (t ++ [c])%list).
Proof.
  unfold and_then, request, note, wait, answered.
  destruct r as [e|p]; simpl; [reflexivity|].
  destruct (settlement (then_ p f)); reflexivity.
Qed.

Lemma activate_preamble (ethereum : Ethereum) (k : P Json) (t : list Call) :
  (_ <~ when_ (on ethereum)
          (_ <~ note (On "chainChanged" HandleChainChanged) ;;
           _ <~ note (On "accountsChanged" HandleAccountsChanged) ;;
           _ <~ note (On "close" HandleClose) ;;
           note (On "networkChanged" HandleNetworkChanged)) ;;
   _ <~ when_ (isMetaMask ethereum) (note DisableAutoRefresh) ;;
   k) t
  = k (t ++ preamble ethereum)%list.
Proof.
  unfold preamble, and_then, when_, note, unit_.
  destruct (on ethereum), (isMetaMask ethereum); simpl;
    rewrite <- ?app_assoc, ?app_nil_r; reflexivity.
Qed.

(** Everything [activate] can do with a provider. *)
Lemma activate_with_provider (ethereum : Ethereum) (t : list Call) :
  activate (Some ethereum) t
  = match answered (send ethereum "eth_requestAccounts") first_parsed with
    | Fulfilled a =>
        (Normal a, (t ++ preamble ethereum ++ [Send "eth_requestAccounts"])%list)
    | RejectedWith e =>
        if ErrorCode_eqb (code e) (CodeNumber 4001)
        then (Abrupt UserRejectedRequestError,
              (t ++ preamble ethereum ++ [Send "eth_requestAccounts"])%list)
        else (match answered (enable ethereum) first_parsed with
              | Fulfilled a => Normal a
              | RejectedWith e' => Abrupt e'
              end,
              (t ++ preamble ethereum
                 ++ [Send "eth_requestAccounts"; fallback_warning; Enable])%list)
    end.
Proof.
  unfold activate. rewrite activate_preamble. unfold recover.
  rewrite request_then_wait.
  destruct (answered (send ethereum "eth_requestAccounts") first_parsed)
    as [a|e].
  - now rewrite <- app_assoc.
  - destruct (ErrorCode_eqb (code e) (CodeNumber 4001)).
    + unfold raise. now rewrite <- app_assoc.
    + unfold and_then at 1. unfold note at 1.
      rewrite request_then_wait. rewrite <- !app_assoc. reflexivity.
Qed.

(** X16: without [window.ethereum] nothing is called: [activate] and
    [getAccount] reject with [NoEthereumProviderError], [isAuthorized]
    answers false instead of rejecting, and [deactivate] and [getProvider]
    return normally. *)
Theorem without_a_provider :
  forall t : list Call,
    activate None t = (Abrupt NoEthereumProviderError, t)
    /\ getAccount None t = (Abrupt NoEthereumProviderError, t)
    /\ isAuthorized coerced_positive None t = (Normal false, t)
    /\ deactivate None t = (Normal tt, t)
    /\ getProvider None t = (Normal None, t).
Proof. intro t. repeat split. Qed.

(** X17: when the request for accounts fails with code 4001 (thrown or
    rejected), [activate] rejects with [UserRejectedRequestError] and never
    calls [enable]; the listeners it subscribed before asking stay
    subscribed, since nothing on this path removes them. *)
Theorem activate_user_rejection_keeps_listeners :
  forall (ethereum : Ethereum) (e : Error) (t : list Call),
    outcome (send ethereum "eth_requestAccounts") = RejectedWith e ->
    code e = CodeNumber 4001 ->
    exists calls,
      activate (Some ethereum) t
      = (Abrupt UserRejectedRequestError, (t ++ calls)%list)
      /\ ~ In Enable calls
      /\ removed calls = []
      /\ registered calls = (if on ethereum then subscriptions else []).
Proof.
  intros ethereum e t O C. rewrite activate_with_provider.
  assert (A : answered (send ethereum "eth_requestAccounts") first_parsed
              = RejectedWith e).
  { unfold answered, then_. destruct (send ethereum "eth_requestAccounts")
      as [e0|p]; simpl in *; [exact O|now rewrite O]. }
  rewrite A, C. simpl.
  exists (preamble ethereum ++ [Send "eth_requestAccounts"])%list.
  split; [reflexivity|]. unfold preamble.
  destruct (on ethereum), (isMetaMask ethereum); simpl; repeat split;
    intro H; repeat (destruct H as [H|H]; [discriminate H|]); exact H.
Qed.

(** X18: when the request for accounts fails with any other error, a
    malformed answer included, [activate] warns and settles as
    [enable ()] does: with the first account of its answer, or with its
    error unchanged.  A rejection with code 4001 at this second attempt is
    passed on as it is, not as [UserRejectedRequestError]. *)
Theorem activate_falls_back_to_enable :
  forall (ethereum : Ethereum) (e : Error) (t : list Call),
    answered (send ethereum "eth_requestAccounts") first_parsed
    = RejectedWith e ->
    code e <> CodeNumber 4001 ->
    let calls := (preamble ethereum
                  ++ [Send "eth_requestAccounts"; fallback_warning; Enable])%list in
    (forall account,
        answered (enable ethereum) first_parsed = Fulfilled account ->
        activate (Some ethereum) t = (Normal account, (t ++ calls)%list))
    /\ (forall e',
          outcome (enable ethereum) = RejectedWith e' ->
          activate (Some ethereum) t = (Abrupt e', (t ++ calls)%list)).
Proof.
  intros ethereum e t A C calls. subst calls.
  rewrite activate_with_provider, A.
  apply ErrorCode_eqb_neq in C. rewrite C. split.
  - intros account E. now rewrite E.
  - intros e' E.
    assert (A' : answered (enable ethereum) first_parsed = RejectedWith e').
    { unfold answered, then_. destruct (enable ethereum) as [e0|p];
        simpl in *; [exact E|now rewrite E]. }
    now rewrite A'.
Qed.

(** X19: [deactivate] undoes the subscriptions of [activate].  On a
    provider with [on], [activate] subscribes the four handlers before it
    asks for accounts, so it has done so however it ends; [deactivate]
    removes the same four, event by event and handler by handler, when the
    provider has [removeListener], and otherwise does nothing at all. *)
Theorem deactivate_removes_what_activate_subscribed :
  forall ethereum : Ethereum,
    on ethereum = true ->
    registered (snd (activate (Some ethereum) [])) = subscriptions
    /\ (removeListener ethereum = true ->
        deactivate (Some ethereum) []
        = (Normal tt, map (fun s => RemoveListener (fst s) (snd s)) subscriptions)
        /\ removed (snd (deactivate (Some ethereum) []))
           = registered (snd (activate (Some ethereum) [])))
    /\ (removeListener ethereum = false ->
        deactivate (Some ethereum) [] = (Normal tt, [])).
Proof.
  intros ethereum O.
  assert (R : registered (snd (activate (Some ethereum) [])) = subscriptions).
  { rewrite activate_with_provider. unfold preamble. rewrite O.
    destruct (answered (send ethereum "eth_requestAccounts") first_parsed)
      as [a|e]; [|destruct (ErrorCode_eqb (code e) (CodeNumber 4001))];
      destruct (isMetaMask ethereum); reflexivity. }
  split; [exact R|]. split; intro L.
  - rewrite R. unfold deactivate. rewrite L. split; reflexivity.
  - unfold deactivate. now rewrite L.
Qed.

(** X20: [getAccount] falls back to [enable ()] only when
    [send ('eth_accounts')] throws synchronously.  When [send] returns a
    promise that rejects, the rejection is what [getAccount] rejects with
    and [enable] is never called: the promise is returned from inside the
    [try] without being awaited. *)
Theorem getAccount_falls_back_only_on_a_throw :
  forall (ethereum : Ethereum) (e : Error) (t : list Call),
    (forall p,
        send ethereum "eth_accounts" = Returned p ->
        settlement p = RejectedWith e ->
        getAccount (Some ethereum) t
        = (Abrupt e, (t ++ [Send "eth_accounts"])%list))
    /\ (send ethereum "eth_accounts" = Threw e ->
        getAccount (Some ethereum) t
        = (match answered (enable ethereum) first_parsed with
           | Fulfilled account => Normal account
           | RejectedWith e' => Abrupt e'
           end,
           (t ++ [Send "eth_accounts";
                  Warning "eth_accounts was unsuccessful, falling back to enable";
                  Enable])%list)).
Proof.
  intros ethereum e t. split.
  - intros p S R. unfold getAccount, recover, and_then, request, note, unit_.
    rewrite S. simpl. unfold wait, then_. now rewrite R.
  - intro T. unfold getAccount, recover, and_then, request, note, unit_, raise.
    rewrite T. simpl. unfold answered, wait.
    destruct (enable ethereum) as [e0|p]; simpl;
      rewrite <- ?app_assoc; [reflexivity|].
    destruct (settlement (then_ p first_parsed)); reflexivity.
Qed.

(** X21: [getAccount] reads [result] off the answer itself, where
    [activate] and [isAuthorized] go through [parseSendReturn].  So when
    the provider answers [eth_accounts] with the bare array of accounts,
    [isAuthorized] tells whether the array is non-empty while [getAccount]
    rejects with a [TypeError]; only an answer wrapped in [{ result }]
    gives [getAccount] its first element. *)
Theorem getAccount_needs_a_wrapped_answer :
  forall (ethereum : Ethereum) (p : Promise Json) (items : list Json)
         (t : list Call),
    send ethereum "eth_accounts" = Returned p ->
    (settlement p = Fulfilled (JArray items) ->
     (exists e, getAccount (Some ethereum) t
                = (Abrupt e, (t ++ [Send "eth_accounts"])%list))
     /\ isAuthorized coerced_positive (Some ethereum) t
        = (Normal (Nat.ltb 0 (List.length items)),
           (t ++ [Send "eth_accounts"])%list))
    /\ (settlement p = Fulfilled (JObject [("result", JArray items)]) ->
        getAccount (Some ethereum) t
        = (Normal (match items with [] => JUndefined | a :: _ => a end),
           (t ++ [Send "eth_accounts"])%list)
        /\ isAuthorized coerced_positive (Some ethereum) t
           = (Normal (Nat.ltb 0 (List.length items)),
              (t ++ [Send "eth_accounts"])%list)).
Proof.
  intros ethereum p items t S. split; intro F.
  - split.
    + eexists. unfold getAccount, recover, and_then, request, note, unit_.
      rewrite S. simpl. unfold wait, then_. rewrite F. reflexivity.
    + unfold isAuthorized, recover. rewrite request_then_wait.
      unfold answered, then_. rewrite S, F. reflexivity.
  - split.
    + unfold getAccount, recover, and_then, request, note, unit_.
      rewrite S. simpl. unfold wait, then_. rewrite F. reflexivity.
    + unfold isAuthorized, recover. rewrite request_then_wait.
      unfold answered, then_. rewrite S, F. reflexivity.
Qed.

(** X22: [isAuthorized] never rejects.  Whatever the provider does (throw,
    reject, answer with anything), it resolves with a boolean, and with
    true only if [send ('eth_accounts')] returned a promise that was
    fulfilled. *)
Theorem isAuthorized_never_rejects :
  forall (window_ethereum : option Ethereum) (t : list Call),
    exists (b : bool) (t' : list Call),
      isAuthorized coerced_positive window_ethereum t = (Normal b, t')
      /\ (b = true ->
          exists ethereum p v,
            window_ethereum = Some ethereum
            /\ send ethereum "eth_accounts" = Returned p
            /\ settlement p = Fulfilled v).
Proof.
  intros [ethereum|] t; simpl.
  - unfold recover. rewrite request_then_wait. unfold answered, then_.
    destruct (send ethereum "eth_accounts") as [e|p] eqn:S.
    + exists false, (t ++ [Send "eth_accounts"])%list.
      split; [reflexivity|discriminate].
    + destruct (settlement p) as [v|e] eqn:F; simpl.
      * destruct (match parseSendReturn v with
                  | Normal v0 => has_length coerced_positive v0
                  | Abrupt e => Abrupt e
                  end) as [b|e]; simpl.
        -- exists b, (t ++ [Send "eth_accounts"])%list.
           split; [reflexivity|]. intros _. now exists ethereum, p, v.
        -- exists false, (t ++ [Send "eth_accounts"])%list.
           split; [reflexivity|discriminate].
      * exists false, (t ++ [Send "eth_accounts"])%list.
        split; [reflexivity|discriminate].
  - exists false, t. split; [reflexivity|discriminate].
Qed.

End InjectedFacts.

(** X23: the two listeners for [accountsChanged] disagree on the empty
    list.  The injected connector's handler emits a deactivation and no
    update; the manager's handler dispatches [UPDATE_ACCOUNT] with
    [undefined].  On a non-empty list both report its first account. *)
Theorem empty_accounts_connector_deactivates_manager_updates :
  forall (Library : Type) (w : @World Library) (t : list Injected.Call)
         (a : string) (rest : list string),
    Injected.handleAccountsChanged false [] t
    = (Normal tt, (t ++ [Injected.EmitDeactivate])%list)
    /\ (exists log,
          Injected.handleAccountsChanged true [] t
          = (Normal tt,
             (t ++ [Injected.ConsoleLog log; Injected.EmitDeactivate])%list))
    /\ snd (accountsChangedListenerHandler [] w)
       = {| store := web3StateReducer (store w) (UPDATE_ACCOUNT AccountUndefined);
            trace := trace w ++ [Dispatched (UPDATE_ACCOUNT AccountUndefined)] |}
    /\ Injected.handleAccountsChanged false (a :: rest) t
       = (Normal tt, (t ++ [Injected.EmitUpdate (Injected.AccountOf a)])%list)
    /\ snd (accountsChangedListenerHandler (a :: rest) w)
       = {| store := web3StateReducer (store w)
                       (UPDATE_ACCOUNT (AccountAddress a));
            trace := trace w
                     ++ [Dispatched (UPDATE_ACCOUNT (AccountAddress a))] |}.
Proof.
  intros Library w t a rest. repeat split.
  eexists. unfold Injected.handleAccountsChanged, Injected.and_then,
    Injected.when_, Injected.note; simpl.
  rewrite <- app_assoc. reflexivity.
Qed.

(** ** The further properties on the sample registries and providers *)

Lemma setConnector_success_witness :
  setConnector Sample.TIMEOUT Scenario.registry "web3.js"
    (Sample.failed_state "wc" Sample.rejected_error) "injected" false
    (Sample.at_state (Sample.failed_state "wc" Sample.rejected_error))
  = (Normal tt,
     {| store := committed "injected" "web3" 1%Z (AccountAddress "0xabc");
        trace := [Called 1 OnActivation; Called 1 GetLibrary;
                  Called 1 GetNetworkId; Called 1 GetAccount;
                  Dispatched
                    (UPDATE_CONNECTOR_VALUES "injected" "web3" 1%Z
                       (AccountAddress "0xabc"))] |})
  /\ web3Initialized (committed "injected" "web3" 1%Z (AccountAddress "0xabc"))
     = true.
Proof.
  apply (setConnector_success_commits_snapshot Sample.TIMEOUT
           Scenario.registry "web3.js"
           (Sample.failed_state "wc" Sample.rejected_error) "injected"
           Sample.injected false tt "web3" 1%Z (AccountAddress "0xabc")
           (Sample.at_state (Sample.failed_state "wc" Sample.rejected_error)));
    solve [reflexivity | discriminate].
Defined.

Lemma setConnector_unsuppressed_policy_witness :
  exists w2,
    setConnector Sample.TIMEOUT Scenario.registry "web3.js"
      (rendered (fst Scenario.connected)) "offline" false
      (snd Scenario.connected)
    = (Abrupt Sample.stale_error, w2)
    /\ error (store w2) = Some Sample.stale_error
    /\ connectorName (store w2) = Some "offline"
    /\ library (store w2) = Some "web3"
    /\ networkId (store w2) = Some 1%Z
    /\ account (store w2) = AccountAddress "0xabc"
    /\ web3Initialized (store w2) = false.
Proof.
  refine (proj2 (setConnector_unsuppressed_policy Sample.TIMEOUT
                   Scenario.registry "web3.js"
                   (rendered (fst Scenario.connected)) "offline"
                   (Sample.offline Sample.stale_error) Sample.stale_error
                   (snd Scenario.connected) _ _
                   (raises_network_only "web3.js"
                      (Sample.offline Sample.stale_error) Sample.stale_error
                      tt "web3"
                      (mkPromise 1 (RejectedWith Sample.stale_error))
                      (mkPromise 1 (Fulfilled (AccountAddress "0xabc")))
                      (AccountAddress "0xabc")
                      eq_refl eq_refl eq_refl eq_refl eq_refl eq_refl eq_refl))
            _);
    solve [reflexivity | discriminate].
Defined.

Lemma activateAccount_success_witness :
  activateAccount Sample.TIMEOUT Scenario.registry
    (Scenario.pending_state "lazy") true
    (Sample.at_state (Scenario.pending_state "lazy"))
  = (Normal tt,
     {| store := committed "lazy" "web3" 4%Z (AccountAddress "0xdef");
        trace := [Called 2 GetAccount;
                  Dispatched (UPDATE_ACCOUNT (AccountAddress "0xdef"))] |}).
Proof.
  refine (proj1 (activateAccount_fetches_and_commits Sample.TIMEOUT
                   Scenario.registry (Scenario.pending_state "lazy")
                   Sample.lazy "web3" true (AccountAddress "0xdef")
                   (Sample.at_state (Scenario.pending_state "lazy"))
                   _ _ _ _ _));
    reflexivity.
Defined.

Lemma activateAccount_failure_witness :
  activateAccount Sample.TIMEOUT Scenario.registry
    (Scenario.pending_state "locked") true
    (Sample.at_state (Scenario.pending_state "locked"))
  = (Abrupt Sample.rejected_error,
     {| store := Scenario.pending_state "locked";
        trace := [Called 5 GetAccount] |})
  /\ activateAccount Sample.TIMEOUT Scenario.registry
       (Scenario.pending_state "locked") false
       (Sample.at_state (Scenario.pending_state "locked"))
     = (Abrupt Sample.rejected_error,
        {| store := {| connectorName := Some "locked";
                       library := Some "web3";
                       networkId := Some 4%Z;
                       account := AccountNull;
                       error := Some Sample.rejected_error |};
           trace := [Called 5 GetAccount;
                     Dispatched (UPDATE_ERROR Sample.rejected_error)] |}).
Proof.
  pose proof (proj2 (activateAccount_failure_policy Sample.TIMEOUT
                       Scenario.registry (Scenario.pending_state "locked")
                       (Scenario.locked Sample.rejected_error) "web3"
                       Sample.rejected_error
                       (Sample.at_state (Scenario.pending_state "locked"))
                       eq_refl eq_refl eq_refl eq_refl)
                    (mkPromise 1 (RejectedWith Sample.rejected_error))
                    eq_refl eq_refl) as (S & _ & U).
  split; [exact S|]. apply U. discriminate.
Defined.

Lemma error_cleared_witness :
  SetConnector "injected" false = UnsetConnector
  \/ exists name suppress,
       SetConnector "injected" false = SetConnector name suppress
       /\ connectorName
            (store (snd (perform Sample.TIMEOUT Scenario.registry "web3.js"
                           (SetConnector "injected" false)
                           (Scenario.idle_hook
                              (Sample.failed_state "wc" Sample.rejected_error))
                           (Sample.at_state
                              (Sample.failed_state "wc" Sample.rejected_error)))))
          = Some name.
Proof.
  apply (error_is_cleared_only_by_set_or_unset Sample.TIMEOUT
           Scenario.registry "web3.js" (SetConnector "injected" false)
           (Scenario.idle_hook (Sample.failed_state "wc" Sample.rejected_error))
           (Sample.at_state (Sample.failed_state "wc" Sample.rejected_error))
           Sample.rejected_error);
    reflexivity.
Defined.

Lemma listeners_only_while_initialized_witness :
  web3Initialized (rendered (fst Scenario.connected)) = true
  /\ exists c,
       activeConnector Scenario.registry (rendered (fst Scenario.connected))
       = Some c
       /\ listens NetworkChanged c = true.
Proof.
  apply (listeners_only_while_initialized Sample.TIMEOUT Scenario.registry
           "web3.js" [Perform (SetConnector "injected" true); Render true]
           NetworkChanged).
  reflexivity.
Defined.

Lemma empty_accounts_drop_listeners_witness :
  step Sample.TIMEOUT Scenario.registry "web3.js"
    (step Sample.TIMEOUT Scenario.registry "web3.js" Scenario.connected
       (Perform (AccountsChangedEvent [])))
    (Render true)
  = ({| rendered := web3StateReducer (store (snd Scenario.connected))
                      (UPDATE_ACCOUNT AccountUndefined);
        deactivates := Some Sample.injected;
        networkListener := false;
        accountListener := false |},
     {| store := web3StateReducer (store (snd Scenario.connected))
                   (UPDATE_ACCOUNT AccountUndefined);
        trace := (trace (snd Scenario.connected)
                  ++ [Dispatched (UPDATE_ACCOUNT AccountUndefined)])
                 ++ [EthereumRemoveListener NetworkChanged;
                     EthereumRemoveListener AccountsChanged] |}).
Proof.
  exact (proj2 (proj2 (proj2
           (change_events_keep_or_drop_listeners Sample.TIMEOUT
              Scenario.registry "web3.js" (fst Scenario.connected)
              (snd Scenario.connected) true eq_refl eq_refl)))).
Defined.

Lemma failed_switch_witness :
  let hw' := run Sample.TIMEOUT Scenario.registry "web3.js"
               ([Perform (SetConnector "injected" true); Render true]
                ++ [Perform (SetConnector "wc" false); Render true]) in
  deactivates (fst hw') = Some (Sample.failing Sample.rejected_error)
  /\ web3Initialized (rendered (fst hw')) = false
  /\ networkListener (fst hw') = false
  /\ accountListener (fst hw') = false
  /\ exists post,
       trace (snd hw')
       = (trace (snd Scenario.connected)
          ++ Called 3 OnActivation
             :: Dispatched (UPDATE_ERROR_WITH_NAME Sample.rejected_error "wc")
             :: Called 1 OnDeactivation :: post)%list
       /\ forall r, deactivations r post = 0.
Proof.
  apply (failed_switch_replaces_the_active_connector Sample.TIMEOUT
           Scenario.registry "web3.js"
           [Perform (SetConnector "injected" true); Render true] true "wc"
           Sample.injected (Sample.failing Sample.rejected_error)
           Sample.rejected_error);
    solve [reflexivity | discriminate].
Defined.

Lemma suppressed_failed_switch_witness :
  let w1 := snd (activation "web3.js" (Sample.offline Sample.stale_error)
                   "offline" (snd Scenario.connected)) in
  step Sample.TIMEOUT Scenario.registry "web3.js"
    (step Sample.TIMEOUT Scenario.registry "web3.js"
       (fst Scenario.connected, snd Scenario.connected)
       (Perform (SetConnector "offline" true)))
    (Render true)
  = (fst Scenario.connected, w1)
  /\ store w1 = store (snd Scenario.connected)
  /\ exists rest,
       trace w1
       = (trace (snd Scenario.connected) ++ Called 4 OnActivation :: rest)%list
       /\ forall r, deactivations r rest = 0.
Proof.
  apply (suppressed_failed_switch_changes_nothing Sample.TIMEOUT
           Scenario.registry "web3.js" (fst Scenario.connected)
           (snd Scenario.connected)
           (snd (activation "web3.js" (Sample.offline Sample.stale_error)
                   "offline" (snd Scenario.connected)))
           true "offline" (Sample.offline Sample.stale_error)
           Sample.stale_error);
    solve [reflexivity | discriminate].
Defined.

Lemma activate_user_rejection_witness :
  exists calls,
    Injected.activate (Some Scenario.refusing) []
    = (Abrupt Injected.UserRejectedRequestError, ([] ++ calls)%list)
    /\ ~ In Injected.Enable calls
    /\ Injected.removed calls = []
    /\ Injected.registered calls = Injected.subscriptions.
Proof.
  apply (activate_user_rejection_keeps_listeners Scenario.refusing
           Scenario.denied []); reflexivity.
Defined.

Lemma activate_fallback_witness :
  Injected.activate (Some Scenario.malformed) []
  = (Abrupt Scenario.denied,
     ([] ++ Injected.preamble Scenario.malformed
         ++ [Injected.Send "eth_requestAccounts"; Injected.fallback_warning;
             Injected.Enable])%list).
Proof.
  refine (proj2 (activate_falls_back_to_enable Scenario.malformed
                   (TypeError "Cannot read property '0' of undefined") []
                   _ _) Scenario.denied _);
    solve [reflexivity | discriminate].
Defined.

Lemma deactivate_round_trip_witness :
  Injected.removed (snd (Injected.deactivate (Some Scenario.refusing) []))
  = Injected.registered (snd (Injected.activate (Some Scenario.refusing) [])).
Proof.
  exact (proj2 (proj1 (proj2
           (deactivate_removes_what_activate_subscribed Scenario.refusing
              eq_refl)) eq_refl)).
Defined.

Lemma getAccount_bare_answer_witness :
  (exists e, Injected.getAccount (Some Scenario.bare) []
             = (Abrupt e, ([] ++ [Injected.Send "eth_accounts"])%list))
  /\ Injected.isAuthorized (fun _ => false) (Some Scenario.bare) []
     = (Normal (Nat.ltb 0 (List.length [Injected.JString "0xabc"])),
        ([] ++ [Injected.Send "eth_accounts"])%list).
Proof.
  refine (proj1 (getAccount_needs_a_wrapped_answer (fun _ => false)
                   Scenario.bare
                   (mkPromise 1
                      (Fulfilled (Injected.JArray [Injected.JString "0xabc"])))
                   [Injected.JString "0xabc"] [] _) _);
    reflexivity.
Defined.

Section Registered.

Context {Library LibraryName : Type}.
Variable WALLETCONNECT_TIMEOUT : ErrorCode.
Variable connectors : @Connectors Library LibraryName.
Variable libraryName : LibraryName.

Lemma named_is_registered_perform (op : Operation) (h : Hook)
    (w : @World Library) :
  named_is_registered connectors (store w) ->
  named_is_registered connectors
    (store (snd (perform WALLETCONNECT_TIMEOUT connectors libraryName op h w))).
Proof.
  intros R n. destruct op as [name sup| |sup|net|accounts]; simpl.
  - unfold setConnector.
    destruct (includes (Object_keys connectors) name) eqn:I; simpl;
      [|apply R].
    destruct (is_current (rendered h) name) eqn:Cur; [apply R|].
    pose proof (setConnector_outcomes WALLETCONNECT_TIMEOUT connectors
                  libraryName (rendered h) name sup w) as O.
    unfold setConnector in O. rewrite I, Cur in O. simpl in O.
    destruct O as [(_ & S)|[(_ & lib & net & acc & S)|[(e & _ & _ & S)|(e & _ & _ & _ & S)]]];
      rewrite S; simpl.
    + apply R.
    + intros [= <-]. now apply includes_In.
    + apply R.
    + unfold error_action. destruct (String.eqb name ""); simpl; [apply R|].
      intros [= <-]. now apply includes_In.
  - discriminate.
  - destruct (activateAccount_outcomes WALLETCONNECT_TIMEOUT connectors
                (rendered h) sup w) as [S|[(acc & S)|(e & S)]];
      rewrite S; apply R.
  - apply R.
  - apply R.
Qed.

Lemma named_is_registered_run (steps : list Step) :
  let hw := run WALLETCONNECT_TIMEOUT connectors libraryName steps in
  named_is_registered connectors (store (snd hw))
  /\ named_is_registered connectors (rendered (fst hw)).
Proof.
  unfold run.
  assert (H : named_is_registered connectors
                (store (snd (mounted (Library := Library)
                               (LibraryName := LibraryName))))
              /\ named_is_registered connectors
                   (rendered (fst (mounted (Library := Library)
                                     (LibraryName := LibraryName)))))
    by (split; intros n; discriminate).
  revert H.
  generalize (mounted (Library := Library) (LibraryName := LibraryName)).
  induction steps as [|st steps IH]; intros hw H; [exact H|].
  simpl. apply IH. destruct hw as [h w]. destruct H as (S & R).
  destruct st as [op|ethereum].
  - split; [now apply named_is_registered_perform|exact R].
  - rewrite step_render. simpl. now split.
Qed.

Lemma In_lookup (name : string) :
  In name (Object_keys connectors) -> exists c, lookup connectors name = Some c.
Proof. intro H. apply includes_lookup. now apply includes_In. Qed.

(** X24: the store only ever names registered connectors.  In every
    history of operations and commits the [connectorName] of the store and
    of the rendered state is absent or a key of the registry; so whenever
    the rendered state is initialized its active connector and its library
    exist, and the third guard of [activateAccount] (the one logging
    "Unexpected Error.") is never taken. *)
Theorem store_names_only_registered_connectors :
  forall steps : list Step,
    let hw := run WALLETCONNECT_TIMEOUT connectors libraryName steps in
    (forall name, connectorName (store (snd hw)) = Some name ->
                  In name (Object_keys connectors))
    /\ (forall name, connectorName (rendered (fst hw)) = Some name ->
                     In name (Object_keys connectors))
    /\ (web3Initialized (rendered (fst hw)) = true ->
        exists c lib,
          activeConnector connectors (rendered (fst hw)) = Some c
          /\ library (rendered (fst hw)) = Some lib).
Proof.
  intros steps hw. destruct (named_is_registered_run steps) as (S & R).
  fold hw in S, R. split; [exact S|]. split; [exact R|].
  intro I. destruct (initialized_parts _ I) as (Tn & Tl & _).
  apply truthy_string_spec in Tn. destruct Tn as (n & Hn & NE).
  apply is_some_spec in Tl. destruct Tl as (lib & Hl).
  destruct (In_lookup n (R n Hn)) as (c & L).
  exists c, lib. split; [|exact Hl].
  unfold activeConnector. rewrite Hn. apply String.eqb_neq in NE.
  now rewrite NE.
Qed.

(** X25: the network id and the account are requested together.  Once
    the activation hook and the library fetch have succeeded, a connector
    with [activateAccountImmediately = true] has its account accessor
    called whenever [getNetworkId] returned a promise, even one that
    rejects; only a synchronous throw of [getNetworkId] skips the account
    fetch. *)
Theorem account_is_requested_beside_the_network_id :
  forall (c : Connector) (name : string) (u : unit) (lib : Library)
         (w : @World Library),
    activateAccountImmediately c = true ->
    outcome (onActivation c) = Fulfilled u ->
    outcome (getLibrary c libraryName) = Fulfilled lib ->
    (forall p,
        getNetworkId c lib = Returned p ->
        exists rest,
          trace (snd (activation libraryName c name w))
          = (trace w ++ [Called (ref c) OnActivation;
                         Called (ref c) GetLibrary;
                         Called (ref c) GetNetworkId;
                         Called (ref c) GetAccount] ++ rest)%list)
    /\ (forall e,
          getNetworkId c lib = Threw e ->
          activation libraryName c name w
          = (Abrupt e,
             {| store := store w;
                trace := trace w ++ [Called (ref c) OnActivation;
                                     Called (ref c) GetLibrary;
                                     Called (ref c) GetNetworkId] |})).
Proof.
  intros c name u lib w F O G.
  rewrite activation_unfold.
  rewrite (invoke_await_fulfilled c OnActivation _ u w O).
  rewrite (invoke_await_fulfilled c GetLibrary _ lib _ G).
  unfold bind, invoke, emit, await, ret, throw, dispatchWeb3State; simpl.
  rewrite F. split.
  - intros p N. rewrite N. simpl.
    destruct (getAccount c lib) as [ea|pa]; simpl.
    + exists []. now rewrite <- !app_assoc.
    + destruct (settlement (Promise_all p pa)); simpl;
        rewrite <- !app_assoc; simpl; eexists; reflexivity.
  - intros e N. rewrite N. simpl. now rewrite <- !app_assoc.
Qed.

End Registered.

Lemma account_requested_beside_network_id_witness :
  exists rest,
    trace (snd (activation "web3.js" (Sample.offline Sample.stale_error)
                  "offline" Sample.fresh))
    = (trace Sample.fresh
       ++ [Called (ref (Sample.offline Sample.stale_error)) OnActivation;
           Called (ref (Sample.offline Sample.stale_error)) GetLibrary;
           Called (ref (Sample.offline Sample.stale_error)) GetNetworkId;
           Called (ref (Sample.offline Sample.stale_error)) GetAccount]
       ++ rest)%list.
Proof.
  refine (proj1 (account_is_requested_beside_the_network_id "web3.js"
                   (Sample.offline Sample.stale_error) "offline" tt "web3"
                   Sample.fresh _ _ _)
            (mkPromise 1 (RejectedWith Sample.stale_error)) _);
    reflexivity.
Defined.
